(** * Model of the blocking I2C master driver of gd32e103-hal (src/i2c.rs)

    The driver talks to memory-mapped registers.  We model it as a state
    monad over a hardware oracle: every register *read* takes the next value
    of the corresponding register from the oracle (indexed by a per-register
    read counter), every register *write* (and every read) is appended to an
    event trace (most recent event first).  Rust panics are the [Panic]
    outcome; arithmetic overflow is a panic, as in a build with overflow
    checks.  A busy-wait that polls more often than [st_fuel] times gives up
    with [NoFuel], which stands for a loop that has not finished. *)

From Stdlib Require Import ZArith List Lia Bool.
Import ListNotations.
Open Scope Z_scope.

(** ** Errors and results (src/i2c.rs, [Error]; nb::Error; core Result) *)

Inductive Error := Bus | Arbitration | Acknowledge | Overrun.

Inductive NbError := WouldBlock | Other (e : Error).

Inductive NbResult (A : Type) := Ok (a : A) | Err (e : NbError).
Arguments Ok {A} a.
Arguments Err {A} e.

Definition Error_eqb (a b : Error) : bool :=
  match a, b with
  | Bus, Bus | Arbitration, Arbitration | Acknowledge, Acknowledge
  | Overrun, Overrun => true
  | _, _ => false
  end.

Definition NbError_eqb (a b : NbError) : bool :=
  match a, b with
  | WouldBlock, WouldBlock => true
  | Other x, Other y => Error_eqb x y
  | _, _ => false
  end.

(** [res != Err(WouldBlock)] *)
Definition is_would_block {A} (r : NbResult A) : bool :=
  match r with Err WouldBlock => true | _ => false end.

(** [ret == Err(Other(Error::Acknowledge))] *)
Definition is_ack_err {A} (r : NbResult A) : bool :=
  match r with Err (Other Acknowledge) => true | _ => false end.

Definition is_err {A} (r : NbResult A) : bool :=
  match r with Err _ => true | Ok _ => false end.

(** ** Bus mode (src/i2c.rs, [DutyCycle], [Mode]) *)

Inductive DutyCycle := Ratio2to1 | Ratio16to9.

Inductive Mode :=
| Standard (frequency : Z)
| Fast (frequency : Z) (duty_cycle : DutyCycle).

Definition get_frequency (m : Mode) : Z :=
  match m with Standard f => f | Fast f _ => f end.

(** ** Registers *)

(** The flags of [STAT0] the driver looks at. *)
Record Stat0 := mkStat0 {
  berr : bool; lostarb : bool; aerr : bool; ouerr : bool;
  sbsend : bool; addsend : bool; btc : bool; tbe : bool; rbne : bool }.

(** Error flags of [STAT0] cleared by a write. *)
Inductive ErrFlag := FBerr | FLostarb | FAerr | FOuerr.

Inductive Ev :=
| EvBusEnable                    (* I2C::enable(apb) *)
| EvBusReset                     (* I2C::reset(apb) *)
| EvCtl1Write (i2cclk : Z)       (* ctl1.write(i2cclk) *)
| EvCtl0Disable                  (* ctl0.write(i2cen disabled) *)
| EvRtWrite (risetime : Z)       (* rt.write(risetime) *)
| EvCkcfgWrite (clkc : Z) (dtcy : bool) (fast : bool)  (* ckcfg.write *)
| EvCtl0Enable                   (* ctl0.modify(i2cen enabled) *)
| EvSoftReset                    (* ctl0.write(i2cen enabled, sreset reset) *)
| EvCtl0ResetValue               (* ctl0.reset() *)
| EvStart                        (* ctl0.modify(start) *)
| EvStop                         (* ctl0.modify(stop) *)
| EvAcken (ack : bool)           (* ctl0.modify(acken ack / nak) *)
| EvPoapAcken (next : bool) (ack : bool)  (* ctl0.modify(poap, acken) *)
| EvStat0Read (v : Stat0)        (* stat0.read() *)
| EvStat1Read                    (* stat1.read() *)
| EvStat0Clear (f : ErrFlag)     (* stat0.write(<flag> no_error) *)
| EvDataWrite (b : Z)            (* data.write(trb) *)
| EvDataRead (b : Z)             (* data.read().trb() *)
| EvCtl0Read (stop : bool)       (* ctl0.read().stop() *)
| EvCycRead (c : Z).             (* DWT::cycle_count() *)

(** The hardware: the value returned by the [k]-th read of each register. *)
Record Hw := mkHw {
  hw_stat0 : nat -> Stat0;
  hw_stop : nat -> bool;      (* STOP bit of CTL0 *)
  hw_data : nat -> Z;         (* byte in DATA *)
  hw_cyc : nat -> Z }.        (* DWT cycle counter, a u32 *)

Record St := mkSt {
  st_hw : Hw;
  n_stat0 : nat; n_ctl0 : nat; n_data : nat; n_cyc : nat;
  st_fuel : nat;
  trace : list Ev }.

(** ** The monad *)

Inductive Out (A : Type) := Done (a : A) | Panic | NoFuel.
Arguments Done {A} a.
Arguments Panic {A}.
Arguments NoFuel {A}.

Definition M (A : Type) := St -> Out A * St.

Definition ret {A} (a : A) : M A := fun s => (Done a, s).

Definition bind {A B} (m : M A) (k : A -> M B) : M B := fun s =>
  match m s with
  | (Done a, s') => k a s'
  | (Panic, s') => (Panic, s')
  | (NoFuel, s') => (NoFuel, s')
  end.

Definition panic {A} : M A := fun s => (Panic, s).

Declare Scope m_scope.
Open Scope m_scope.
Notation "x <- m ;; k" := (bind m (fun x => k))
  (at level 61, m at next level, right associativity) : m_scope.
Notation "m ;; k" := (bind m (fun _ => k))
  (at level 61, right associativity) : m_scope.

(** Rust's [?] on an [NbResult]. *)
Definition try_ {A B} (m : M (NbResult A)) (k : A -> M (NbResult B))
  : M (NbResult B) :=
  bind m (fun r => match r with Ok a => k a | Err e => ret (Err e) end).
Notation "x <-? m ;; k" := (try_ m (fun x => k))
  (at level 61, m at next level, right associativity) : m_scope.

(** ** Register access *)

Definition emit (e : Ev) : M unit := fun s =>
  (Done tt, mkSt (st_hw s) (n_stat0 s) (n_ctl0 s) (n_data s) (n_cyc s)
                 (st_fuel s) (e :: trace s)).

Definition read_stat0 : M Stat0 := fun s =>
  let v := hw_stat0 (st_hw s) (n_stat0 s) in
  (Done v, mkSt (st_hw s) (S (n_stat0 s)) (n_ctl0 s) (n_data s) (n_cyc s)
                (st_fuel s) (EvStat0Read v :: trace s)).

Definition read_stat1 : M unit := emit EvStat1Read.

Definition read_ctl0_stop : M bool := fun s =>
  let v := hw_stop (st_hw s) (n_ctl0 s) in
  (Done v, mkSt (st_hw s) (n_stat0 s) (S (n_ctl0 s)) (n_data s) (n_cyc s)
                (st_fuel s) (EvCtl0Read v :: trace s)).

Definition read_data : M Z := fun s =>
  let v := hw_data (st_hw s) (n_data s) in
  (Done v, mkSt (st_hw s) (n_stat0 s) (n_ctl0 s) (S (n_data s)) (n_cyc s)
                (st_fuel s) (EvDataRead v :: trace s)).

(** [DWT::cycle_count()] *)
Definition cycle_count : M Z := fun s =>
  let v := hw_cyc (st_hw s) (n_cyc s) in
  (Done v, mkSt (st_hw s) (n_stat0 s) (n_ctl0 s) (n_data s) (S (n_cyc s))
                (st_fuel s) (EvCycRead v :: trace s)).

Definition get_fuel : M nat := fun s => (Done (st_fuel s), s).

(** ** [wait_for_flag!] *)

Definition wait_for_flag (flag : Stat0 -> bool) : M (NbResult unit) :=
  stat0 <- read_stat0 ;;
  if berr stat0 then emit (EvStat0Clear FBerr) ;; ret (Err (Other Bus))
  else if lostarb stat0 then
    emit (EvStat0Clear FLostarb) ;; ret (Err (Other Arbitration))
  else if aerr stat0 then
    emit (EvStat0Clear FAerr) ;; ret (Err (Other Acknowledge))
  else if ouerr stat0 then
    emit (EvStat0Clear FOuerr) ;; ret (Err (Other Overrun))
  else if flag stat0 then ret (Ok tt)
  else ret (Err WouldBlock).

(** ** [busy_wait!] and [busy_wait_cycles!] *)

(** [u32::wrapping_sub] *)
Definition wrapping_sub (a b : Z) : Z := (a - b) mod 2 ^ 32.

Fixpoint busy_wait_loop (fuel : nat) (nb_expr : M (NbResult unit))
    (started cycles : Z) : M (NbResult unit) :=
  match fuel with
  | O => fun s => (NoFuel, s)
  | S fuel' =>
      res <- nb_expr ;;
      if negb (is_would_block res) then ret res
      else
        now <- cycle_count ;;
        if cycles <=? wrapping_sub now started then ret res
        else busy_wait_loop fuel' nb_expr started cycles
  end.

Definition busy_wait_cycles (nb_expr : M (NbResult unit)) (cycles : Z)
  : M (NbResult unit) :=
  started <- cycle_count ;;
  fuel <- get_fuel ;;
  busy_wait_loop fuel nb_expr started cycles.

(** ** Rust integer operations with overflow checks *)

Definition u16_add (a b : Z) : M Z :=
  if a + b <? 2 ^ 16 then ret (a + b) else panic.
Definition u16_mul (a b : Z) : M Z :=
  if a * b <? 2 ^ 16 then ret (a * b) else panic.
Definition u32_mul (a b : Z) : M Z :=
  if a * b <? 2 ^ 32 then ret (a * b) else panic.
(** Integer division panics on a zero divisor. *)
Definition div_checked (a b : Z) : M Z :=
  if b =? 0 then panic else ret (a / b).
(** [x as u8], [x as u16]: truncation. *)
Definition as_u8 (x : Z) : Z := x mod 2 ^ 8.
Definition as_u16 (x : Z) : Z := x mod 2 ^ 16.

(** ** The non-blocking peripheral ([I2c]) *)

(** Fields of [I2c] that the code reads ([i2c], pins are owned handles). *)
Record I2c := mkI2c { mode : Mode; pclk1 : Z }.

(** [I2c::init] *)
Definition init (i : I2c) : M unit :=
  let freq := get_frequency (mode i) in
  let pclk1_mhz := as_u16 (pclk1 i / 1000000) in
  emit (EvCtl1Write (as_u8 pclk1_mhz)) ;;
  emit EvCtl0Disable ;;
  (match mode i with
   | Standard _ =>
       rt <- u16_add pclk1_mhz 1 ;;
       emit (EvRtWrite (as_u8 rt)) ;;
       d <- u32_mul freq 2 ;;
       q <- div_checked (pclk1 i) d ;;
       emit (EvCkcfgWrite (Z.max (as_u16 q) 4) false false)
   | Fast _ duty_cycle =>
       m <- u16_mul pclk1_mhz 300 ;;
       rt <- u16_add (m / 1000) 1 ;;
       emit (EvRtWrite (as_u8 rt)) ;;
       fd <- (match duty_cycle with
              | Ratio2to1 =>
                  d <- u32_mul freq 3 ;;
                  q <- div_checked (pclk1 i) d ;;
                  ret (Z.max (as_u16 q) 1, false)
              | Ratio16to9 =>
                  d <- u32_mul freq 25 ;;
                  q <- div_checked (pclk1 i) d ;;
                  ret (Z.max (as_u16 q) 1, true)
              end) ;;
       emit (EvCkcfgWrite (fst fd) (snd fd) true)
   end) ;;
  emit EvCtl0Enable.

(** [I2c::create_internal]; [pclk1] is [I2C::Bus::get_frequency(clocks).0]. *)
Definition create_internal (mode : Mode) (pclk1 : Z) : M I2c :=
  emit EvBusEnable ;;
  emit EvBusReset ;;
  if get_frequency mode <=? 400000 then
    let i2c := mkI2c mode pclk1 in
    init i2c ;;
    ret i2c
  else panic.

(** [I2c::reset] *)
Definition reset (i : I2c) : M unit :=
  emit EvSoftReset ;;
  emit EvCtl0ResetValue ;;
  init i.

(** [I2c::send_start] *)
Definition send_start : M unit := emit EvStart.

(** [I2c::wait_after_sent_start] *)
Definition wait_after_sent_start : M (NbResult unit) := wait_for_flag sbsend.

(** [I2c::wait_for_stop] *)
Definition wait_for_stop : M (NbResult unit) :=
  stop <- read_ctl0_stop ;;
  if negb stop then ret (Ok tt) else ret (Err WouldBlock).

(** [I2c::send_addr]: [addr << 1 | read_bit] on a u8. *)
Definition send_addr (addr : Z) (read : bool) : M unit :=
  emit (EvDataWrite (Z.lor (as_u8 (Z.shiftl addr 1)) (if read then 1 else 0))).

(** [I2c::send_stop] *)
Definition send_stop : M unit := emit EvStop.

(** ** The blocking driver ([BlockingI2c]) *)

Record BlockingI2c := mkBlockingI2c {
  nb : I2c;
  start_timeout : Z;
  start_retries : nat;   (* a u8 *)
  addr_timeout : Z;
  data_timeout : Z }.

(** The [while retries_left > 0] loop of [send_start_and_wait]. *)
Fixpoint start_loop (b : BlockingI2c) (retries_left : nat)
    (last_ret : NbResult unit) : M (NbResult unit) :=
  match retries_left with
  | O => ret last_ret
  | S retries_left' =>
      send_start ;;
      last_ret <- busy_wait_cycles wait_after_sent_start (start_timeout b) ;;
      if is_err last_ret then
        reset (nb b) ;;
        start_loop b retries_left' last_ret
      else ret last_ret
  end.

(** [BlockingI2c::send_start_and_wait] *)
Definition send_start_and_wait (b : BlockingI2c) : M (NbResult unit) :=
  start_loop b (start_retries b) (Err WouldBlock).

(** [BlockingI2c::send_addr_and_wait] *)
Definition send_addr_and_wait (b : BlockingI2c) (addr : Z) (read : bool)
  : M (NbResult unit) :=
  read_stat0 ;;
  send_addr addr read ;;
  ret_ <- busy_wait_cycles (wait_for_flag addsend) (addr_timeout b) ;;
  (if is_ack_err ret_ then send_stop else ret tt) ;;
  ret ret_.

(** The [for byte in &bytes[1..]] loop of [write_bytes_and_wait]. *)
Fixpoint write_rest (b : BlockingI2c) (bytes : list Z) : M (NbResult unit) :=
  match bytes with
  | [] => ret (Ok tt)
  | byte :: rest =>
      _ <-? busy_wait_cycles (wait_for_flag tbe) (data_timeout b) ;;
      emit (EvDataWrite byte) ;;
      write_rest b rest
  end.

(** [BlockingI2c::write_bytes_and_wait]; [bytes[0]] panics on an empty slice. *)
Definition write_bytes_and_wait (b : BlockingI2c) (bytes : list Z)
  : M (NbResult unit) :=
  read_stat0 ;;
  read_stat1 ;;
  match bytes with
  | [] => panic
  | b0 :: rest =>
      emit (EvDataWrite b0) ;;
      _ <-? write_rest b rest ;;
      _ <-? busy_wait_cycles (wait_for_flag btc) (data_timeout b) ;;
      ret (Ok tt)
  end.

(** [BlockingI2c::write_without_stop] *)
Definition write_without_stop (b : BlockingI2c) (addr : Z) (bytes : list Z)
  : M (NbResult unit) :=
  _ <-? send_start_and_wait b ;;
  _ <-? send_addr_and_wait b addr false ;;
  ret_ <- write_bytes_and_wait b bytes ;;
  (if is_ack_err ret_ then send_stop else ret tt) ;;
  ret ret_.

(** [Write::write] *)
Definition write (b : BlockingI2c) (addr : Z) (bytes : list Z)
  : M (NbResult unit) :=
  _ <-? write_without_stop b addr bytes ;;
  send_stop ;;
  _ <-? busy_wait_cycles wait_for_stop (data_timeout b) ;;
  ret (Ok tt).

(** ** Slices *)

(** [a - b] on usize, with the overflow check. *)
Definition usize_sub (a b : nat) : M nat :=
  if (b <=? a)%nat then ret (a - b)%nat else panic.

(** [<[T]>::split_at_mut]: panics when [mid > len]. *)
Definition split_at_mut (buf : list Z) (mid : nat) : M (list Z * list Z) :=
  if (mid <=? length buf)%nat then ret (firstn mid buf, skipn mid buf)
  else panic.

(** [buf[i] = v]: panics when [i] is out of bounds. *)
Definition slice_set (buf : list Z) (i : nat) (v : Z) : M (list Z) :=
  if (i <? length buf)%nat then ret (firstn i buf ++ v :: skipn (S i) buf)
  else panic.

Definition is_empty {A} (l : list A) : bool :=
  match l with [] => true | _ => false end.

(** ** [Read::read] *)

(** The [for byte in first_bytes] loop; returns the new slice contents. *)
Fixpoint read_first_bytes (b : BlockingI2c) (first_bytes : list Z)
  : M (NbResult (list Z)) :=
  match first_bytes with
  | [] => ret (Ok [])
  | _ :: rest =>
      _ <-? busy_wait_cycles (wait_for_flag rbne) (data_timeout b) ;;
      v <- read_data ;;
      rest' <-? read_first_bytes b rest ;;
      ret (Ok (v :: rest'))
  end.

(** [Read::read]; the [Ok] value is the buffer after the call. *)
Definition read (b : BlockingI2c) (addr : Z) (buffer : list Z)
  : M (NbResult (list Z)) :=
  match length buffer with
  | S O =>
      _ <-? send_start_and_wait b ;;
      _ <-? send_addr_and_wait b addr true ;;
      emit (EvAcken false) ;;
      read_stat0 ;;
      read_stat1 ;;
      send_stop ;;
      _ <-? busy_wait_cycles (wait_for_flag rbne) (data_timeout b) ;;
      v <- read_data ;;
      buffer <- slice_set buffer 0 v ;;
      _ <-? busy_wait_cycles wait_for_stop (data_timeout b) ;;
      emit (EvAcken true) ;;
      ret (Ok buffer)
  | S (S O) =>
      emit (EvPoapAcken true true) ;;
      _ <-? send_start_and_wait b ;;
      _ <-? send_addr_and_wait b addr true ;;
      read_stat0 ;;
      read_stat1 ;;
      emit (EvAcken false) ;;
      _ <-? busy_wait_cycles (wait_for_flag btc) (data_timeout b) ;;
      send_stop ;;
      v0 <- read_data ;;
      buffer <- slice_set buffer 0 v0 ;;
      v1 <- read_data ;;
      buffer <- slice_set buffer 1 v1 ;;
      _ <-? busy_wait_cycles wait_for_stop (data_timeout b) ;;
      emit (EvPoapAcken false false) ;;
      emit (EvAcken true) ;;
      ret (Ok buffer)
  | buffer_len =>
      _ <-? send_start_and_wait b ;;
      _ <-? send_addr_and_wait b addr true ;;
      emit (EvAcken true) ;;
      read_stat0 ;;
      read_stat1 ;;
      mid <- usize_sub buffer_len 3 ;;
      halves <- split_at_mut buffer mid ;;
      let (first_bytes, last_two_bytes) := halves in
      first_bytes <-? read_first_bytes b first_bytes ;;
      _ <-? busy_wait_cycles (wait_for_flag btc) (data_timeout b) ;;
      emit (EvAcken false) ;;
      v0 <- read_data ;;
      last_two_bytes <- slice_set last_two_bytes 0 v0 ;;
      send_stop ;;
      v1 <- read_data ;;
      last_two_bytes <- slice_set last_two_bytes 1 v1 ;;
      _ <-? busy_wait_cycles (wait_for_flag rbne) (data_timeout b) ;;
      v2 <- read_data ;;
      last_two_bytes <- slice_set last_two_bytes 2 v2 ;;
      _ <-? busy_wait_cycles wait_for_stop (data_timeout b) ;;
      emit (EvAcken true) ;;
      ret (Ok (first_bytes ++ last_two_bytes))
  end.

(** ** [WriteRead::write_read]; the [Ok] value is the buffer after the call. *)
Definition write_read (b : BlockingI2c) (addr : Z) (bytes buffer : list Z)
  : M (NbResult (list Z)) :=
  _ <-? (if negb (is_empty bytes) then write_without_stop b addr bytes
         else ret (Ok tt)) ;;
  if negb (is_empty buffer) then
    buffer <-? read b addr buffer ;;
    ret (Ok buffer)
  else if negb (is_empty bytes) then
    send_stop ;;
    _ <-? busy_wait_cycles wait_for_stop (data_timeout b) ;;
    ret (Ok buffer)
  else ret (Ok buffer).

(** ** Constructors of [BlockingI2c] *)

(** [blocking_i2c]: the timeouts given in microseconds are turned into
    cycles of the system clock; [sysclk] is [clocks.sysclk().0].  The
    products are u32 multiplications, with the overflow check. *)
Definition blocking_i2c (i2c : I2c) (sysclk : Z) (start_timeout_us : Z)
    (start_retries : nat) (addr_timeout_us data_timeout_us : Z)
  : M BlockingI2c :=
  let sysclk_mhz := sysclk / 1000000 in
  start_timeout <- u32_mul start_timeout_us sysclk_mhz ;;
  addr_timeout <- u32_mul addr_timeout_us sysclk_mhz ;;
  data_timeout <- u32_mul data_timeout_us sysclk_mhz ;;
  ret (mkBlockingI2c i2c start_timeout start_retries addr_timeout data_timeout).

(** [BlockingI2c::create_internal]: [I2c::create_internal], then
    [blocking_i2c]. *)
Definition blocking_create_internal (mode : Mode) (pclk1 sysclk : Z)
    (start_timeout_us : Z) (start_retries : nat)
    (addr_timeout_us data_timeout_us : Z) : M BlockingI2c :=
  i2c <- create_internal mode pclk1 ;;
  blocking_i2c i2c sysclk start_timeout_us start_retries addr_timeout_us
    data_timeout_us.

(** ** Specifications written from the spec's words *)

(** The status decoder's error priority (spec 4.1). *)
Definition error_priority : list Error := [Bus; Arbitration; Acknowledge; Overrun].

Definition error_present (v : Stat0) (e : Error) : bool :=
  match e with
  | Bus => berr v | Arbitration => lostarb v
  | Acknowledge => aerr v | Overrun => ouerr v
  end.

Definition error_flag (e : Error) : ErrFlag :=
  match e with
  | Bus => FBerr | Arbitration => FLostarb
  | Acknowledge => FAerr | Overrun => FOuerr
  end.

(** The first error of the priority list present in [v]. *)
Definition highest_error (v : Stat0) : option Error :=
  find (error_present v) error_priority.

Definition decode_spec (flag : Stat0 -> bool) (v : Stat0) : NbResult unit :=
  match highest_error v with
  | Some e => Err (Other e)
  | None => if flag v then Ok tt else Err WouldBlock
  end.

(** The status writes made while reporting: the reported error's bit only. *)
Definition decode_clears (v : Stat0) : list Ev :=
  match highest_error v with
  | Some e => [EvStat0Clear (error_flag e)]
  | None => []
  end.

(** A bounded busy-wait (spec 4.3), as a relation: after the start sample
    [started], poll; a result other than "not ready" ends the wait; on "not
    ready", sample the counter: the wait ends with "not ready" once
    [cycles] have elapsed, and polls again otherwise.  The [nat] index is the
    number of polls. *)
Inductive bw_spec (poll : M (NbResult unit)) (started cycles : Z)
  : St -> NbResult unit -> St -> nat -> Prop :=
| bw_ready s r s1 :
    poll s = (Done r, s1) -> is_would_block r = false ->
    bw_spec poll started cycles s r s1 1
| bw_expired s s1 now s2 :
    poll s = (Done (Err WouldBlock), s1) -> cycle_count s1 = (Done now, s2) ->
    cycles <= wrapping_sub now started ->
    bw_spec poll started cycles s (Err WouldBlock) s2 1
| bw_again s s1 now s2 r s3 n :
    poll s = (Done (Err WouldBlock), s1) -> cycle_count s1 = (Done now, s2) ->
    wrapping_sub now started < cycles ->
    bw_spec poll started cycles s2 r s3 n ->
    bw_spec poll started cycles s r s3 (S n).

(** Reading [k] bytes, each after a busy-wait for "receive buffer not
    empty" (spec 4.5, leading group). *)
Fixpoint read_leading (b : BlockingI2c) (k : nat) : M (NbResult (list Z)) :=
  match k with
  | O => ret (Ok [])
  | S k' =>
      _ <-? busy_wait_cycles (wait_for_flag rbne) (data_timeout b) ;;
      v <- read_data ;;
      rest <-? read_leading b k' ;;
      ret (Ok (v :: rest))
  end.

(** The read of [n >= 3] bytes as spec 4.5 describes it: a leading group of
    [n - 3] bytes and a trailing group of exactly 3 bytes. *)
Definition read_ge3_spec (b : BlockingI2c) (addr : Z) (n : nat)
  : M (NbResult (list Z)) :=
  _ <-? send_start_and_wait b ;;
  _ <-? send_addr_and_wait b addr true ;;
  emit (EvAcken true) ;;
  read_stat0 ;;
  read_stat1 ;;
  leading <-? read_leading b (n - 3) ;;
  _ <-? busy_wait_cycles (wait_for_flag btc) (data_timeout b) ;;
  emit (EvAcken false) ;;
  t0 <- read_data ;;
  send_stop ;;
  t1 <- read_data ;;
  _ <-? busy_wait_cycles (wait_for_flag rbne) (data_timeout b) ;;
  t2 <- read_data ;;
  _ <-? busy_wait_cycles wait_for_stop (data_timeout b) ;;
  emit (EvAcken true) ;;
  ret (Ok (leading ++ [t0; t1; t2])).

(** START generation with [k + 1] attempts (spec 4.3): issue START and wait
    for the start flag; on success stop; on an error soft-reset the
    peripheral, and either retry or, after the last attempt, return the
    error of that attempt. *)
Fixpoint start_attempts (b : BlockingI2c) (k : nat) : M (NbResult unit) :=
  send_start ;;
  r <- busy_wait_cycles wait_after_sent_start (start_timeout b) ;;
  match r with
  | Ok _ => ret r
  | Err _ =>
      reset (nb b) ;;
      match k with
      | O => ret r
      | S k' => start_attempts b k'
      end
  end.

(** Counting events of the trace. *)
Definition cnt (p : Ev -> bool) (s : St) : nat := length (filter p (trace s)).

Definition is_soft_reset (e : Ev) : bool :=
  match e with EvSoftReset => true | _ => false end.
Definition is_start (e : Ev) : bool :=
  match e with EvStart => true | _ => false end.
Definition is_stop (e : Ev) : bool :=
  match e with EvStop => true | _ => false end.

(** Clock programming (spec 4.7): (rise time, clock divisor, duty bit,
    fast-mode bit), with [pclk1_MHz = pclk1 / 1_000_000]. *)
Definition clock_claim (m : Mode) (pclk1 : Z) : Z * Z * bool * bool :=
  let mhz := pclk1 / 1000000 in
  match m with
  | Standard f => (mhz + 1, Z.max (pclk1 / (f * 2)) 4, false, false)
  | Fast f Ratio2to1 => (mhz * 300 / 1000 + 1, Z.max (pclk1 / (f * 3)) 1, false, true)
  | Fast f Ratio16to9 => (mhz * 300 / 1000 + 1, Z.max (pclk1 / (f * 25)) 1, true, true)
  end.

(** The same with the casts to the register field types: the rise time
    taken modulo [2^8] ([as u8]), the quotient modulo [2^16] ([as u16])
    before the floor. *)
Definition clock_cast (m : Mode) (pclk1 : Z) : Z * Z * bool * bool :=
  let mhz := pclk1 / 1000000 in
  match m with
  | Standard f =>
      ((mhz + 1) mod 2 ^ 8, Z.max ((pclk1 / (f * 2)) mod 2 ^ 16) 4, false, false)
  | Fast f Ratio2to1 =>
      ((mhz * 300 / 1000 + 1) mod 2 ^ 8,
       Z.max ((pclk1 / (f * 3)) mod 2 ^ 16) 1, false, true)
  | Fast f Ratio16to9 =>
      ((mhz * 300 / 1000 + 1) mod 2 ^ 8,
       Z.max ((pclk1 / (f * 25)) mod 2 ^ 16) 1, true, true)
  end.

Definition set_trace (s : St) (tr : list Ev) : St :=
  mkSt (st_hw s) (n_stat0 s) (n_ctl0 s) (n_data s) (n_cyc s) (st_fuel s) tr.

(** [init] finishes, having written CTL1, disabled, written RT and CKCFG
    with the values [v] and enabled the peripheral. *)
Definition init_writes (i : I2c) (s : St) (v : Z * Z * bool * bool) : Prop :=
  let '(rt, clkc, dtcy, fast) := v in
  init i s = (Done tt, set_trace s
    (EvCtl0Enable :: EvCkcfgWrite clkc dtcy fast :: EvRtWrite rt ::
     EvCtl0Disable :: EvCtl1Write (as_u8 (pclk1 i / 1000000)) :: trace s)).

(** A run of [m] that finishes adds [c] events satisfying [p] to the trace. *)
Definition adds {A} (p : Ev -> bool) (c : nat) (m : M A) : Prop :=
  forall s a s', m s = (Done a, s') -> cnt p s' = (cnt p s + c)%nat.

(** What the Acknowledge-error check leaves in the trace: one STOP, as the
    last event, after an Acknowledge error, no STOP otherwise. *)
Definition stop_on_ack (r : NbResult unit) (s s' : St) : Prop :=
  if is_ack_err r then
    cnt is_stop s' = S (cnt is_stop s) /\ exists t, trace s' = EvStop :: t
  else cnt is_stop s' = cnt is_stop s.

(** A state with no hardware activity, for concrete runs. *)
Definition idle_hw : Hw :=
  mkHw (fun _ => mkStat0 false false false false false false false false false)
       (fun _ => false) (fun _ => 0) (fun _ => 0).

Definition idle_state : St := mkSt idle_hw 0 0 0 0 0 [].

(** A device that acknowledges everything at once: START sent, address
    sent, byte transferred, buffers ready; the cycle counter stands still. *)
Definition ack_hw : Hw :=
  mkHw (fun _ => mkStat0 false false false false true true true true true)
       (fun _ => false) (fun n => Z.of_nat n + 10) (fun _ => 0).

Definition ack_state : St := mkSt ack_hw 0 0 0 0 100 [].

(** A bus that reports a bus error on every poll. *)
Definition bus_err_hw : Hw :=
  mkHw (fun _ => mkStat0 true false false false false false false false false)
       (fun _ => false) (fun _ => 0) (fun _ => 0).

Definition bus_err_state : St := mkSt bus_err_hw 0 0 0 0 100 [].

(** A device that never acknowledges its address. *)
Definition nack_hw : Hw :=
  mkHw (fun _ => mkStat0 false false true false true false false false false)
       (fun _ => false) (fun _ => 0) (fun _ => 0).

Definition nack_state : St := mkSt nack_hw 0 0 0 0 100 [].

(** A bus where START is sent and the address is then not acknowledged. *)
Definition addr_nack_hw : Hw :=
  mkHw (fun n => match n with
                 | O => mkStat0 false false false false true false false false false
                 | S _ => mkStat0 false false true false false false false false false
                 end)
       (fun _ => false) (fun _ => 0) (fun _ => 0).

Definition addr_nack_state : St := mkSt addr_nack_hw 0 0 0 0 100 [].

(** A standard-mode configuration at 8 MHz with [retries] START attempts. *)
Definition cfg (retries : nat) : BlockingI2c :=
  mkBlockingI2c (mkI2c (Standard 100000) 8000000) 1000 retries 1000 1000.

(** The byte [send_addr] writes to DATA: [addr << 1 | read_bit] on a u8. *)
Definition addr_byte (addr : Z) (read : bool) : Z :=
  Z.lor (as_u8 (Z.shiftl addr 1)) (if read then 1 else 0).

(** The events of the trace chosen by [sel], oldest first. *)
Definition out (sel : Ev -> list Ev) (s : St) : list Ev :=
  flat_map sel (rev (trace s)).

(** What goes out on the bus from the data path: bytes written to DATA and
    STOP conditions. *)
Definition bus_sel (e : Ev) : list Ev :=
  match e with EvDataWrite _ | EvStop => [e] | _ => [] end.

(** A run of [m] that finishes adds the events [l] to [out sel]. *)
Definition emits {A} (sel : Ev -> list Ev) (l : list Ev) (m : M A) : Prop :=
  forall s a s', m s = (Done a, s') -> out sel s' = out sel s ++ l.

(** The same for the runs of [m] that succeed. *)
Definition emits_ok {A} (sel : Ev -> list Ev) (l : list Ev)
    (m : M (NbResult A)) : Prop :=
  forall s a s', m s = (Done (Ok a), s') -> out sel s' = out sel s ++ l.

(** A run of [m] that finishes leaves the hardware oracle and the DATA read
    counter alone. *)
Definition data_frame {A} (m : M A) : Prop :=
  forall s a s', m s = (Done a, s') ->
  st_hw s' = st_hw s /\ n_data s' = n_data s.

(** The next [n] values of the DATA register, from the state [s] on. *)
Definition next_data (s : St) (n : nat) : list Z :=
  map (hw_data (st_hw s)) (seq (n_data s) n).

(** A run of [m] that succeeds ends with the event [e]. *)
Definition ok_ends {A} (e : Ev) (m : M (NbResult A)) : Prop :=
  forall s a s', m s = (Done (Ok a), s') -> exists t, trace s' = e :: t.

(** ** Proofs *)

Lemma bind_ret {A B} (a : A) (k : A -> M B) s : bind (ret a) k s = k a s.
Proof. reflexivity. Qed.

Lemma bind_ext {A B} (m : M A) (k1 k2 : A -> M B) :
  (forall a s, k1 a s = k2 a s) -> forall s, bind m k1 s = bind m k2 s.
Proof.
  intros H s; unfold bind; destruct (m s) as [[a| |] s']; auto.
Qed.

Lemma try_ext {A B} (m : M (NbResult A)) (k1 k2 : A -> M (NbResult B)) :
  (forall a s, k1 a s = k2 a s) -> forall s, try_ m k1 s = try_ m k2 s.
Proof.
  intros H s; apply bind_ext; intros [a|e] s'; auto.
Qed.

Lemma try_congr {A B} (m1 m2 : M (NbResult A)) (k : A -> M (NbResult B)) :
  (forall s, m1 s = m2 s) -> forall s, try_ m1 k s = try_ m2 k s.
Proof. intros H s; unfold try_, bind; rewrite H; reflexivity. Qed.

(** One step of two monadic programs that start with the same action. *)
Ltac mstep :=
  match goal with
  | |- try_ ?m _ ?s = try_ ?m _ ?s => apply try_ext; intros
  | |- bind ?m _ ?s = bind ?m _ ?s => apply bind_ext; intros
  end.

Lemma is_would_block_true {A} (r : NbResult A) :
  is_would_block r = true -> r = Err WouldBlock.
Proof. destruct r as [|[|]]; simpl; congruence. Qed.

(** C3: one poll of the status decoder reads [STAT0] once, reports the
    highest-priority error present (bus error, arbitration loss, acknowledge
    failure, overrun), clearing exactly that error's bit; with no error it
    reports success if the requested flag is set and "not yet ready"
    otherwise. *)
Theorem wait_for_flag_priority (flag : Stat0 -> bool) (s : St) :
  let v := hw_stat0 (st_hw s) (n_stat0 s) in
  wait_for_flag flag s =
    (Done (decode_spec flag v),
     mkSt (st_hw s) (S (n_stat0 s)) (n_ctl0 s) (n_data s) (n_cyc s)
          (st_fuel s) (decode_clears v ++ EvStat0Read v :: trace s)).
Proof.
  cbv zeta.
  destruct (hw_stat0 (st_hw s) (n_stat0 s)) as [[] [] [] [] ? ? ? ? ?] eqn:Hv;
    unfold wait_for_flag, bind, read_stat0, emit, ret, decode_spec,
      decode_clears, highest_error; rewrite Hv; simpl;
    try reflexivity; destruct (flag _); reflexivity.
Qed.

Section BusyWait.

Variable poll : M (NbResult unit).
Variable cycles : Z.

Lemma busy_wait_loop_mono : forall fuel fuel' started s r s',
  (fuel <= fuel')%nat ->
  busy_wait_loop fuel poll started cycles s = (Done r, s') ->
  busy_wait_loop fuel' poll started cycles s = (Done r, s').
Proof.
  induction fuel as [|fuel IH]; intros fuel' started s r s' Hle H;
    [discriminate|].
  destruct fuel' as [|fuel']; [lia|].
  cbn [busy_wait_loop] in *. unfold bind in *.
  destruct (poll s) as [[r1| |] s1]; try discriminate.
  destruct (negb (is_would_block r1)); [exact H|].
  destruct (cycle_count s1) as [[now| |] s2]; try discriminate.
  destruct (cycles <=? wrapping_sub now started); [exact H|].
  eapply IH; [lia|exact H].
Qed.

Lemma busy_wait_loop_sound : forall fuel started s r s',
  busy_wait_loop fuel poll started cycles s = (Done r, s') ->
  exists n, (1 <= n <= fuel)%nat /\ bw_spec poll started cycles s r s' n.
Proof.
  induction fuel as [|fuel IH]; intros started s r s' H; simpl in H.
  - discriminate.
  - unfold bind in H.
    destruct (poll s) as [[r1| |] s1] eqn:Hp; try discriminate.
    destruct (is_would_block r1) eqn:Hw; cbv [negb] in H.
    + apply is_would_block_true in Hw; subst r1.
      unfold bind in H.
      destruct (cycle_count s1) as [[now| |] s2] eqn:Hc; try discriminate.
      destruct (cycles <=? wrapping_sub now started) eqn:Hle.
      * cbv [ret] in H; injection H as <- <-.
        exists 1%nat; split; [lia|].
        eapply bw_expired; eauto. apply Z.leb_le; exact Hle.
      * destruct (IH _ _ _ _ H) as [n [Hn Hs]].
        exists (S n); split; [lia|].
        eapply bw_again; eauto. apply Z.leb_gt; exact Hle.
    + cbv [ret] in H; injection H as <- <-.
      exists 1%nat; split; [lia|]. eapply bw_ready; eauto.
Qed.

(** The polls the code makes ([wait_for_flag!], [wait_for_stop]) leave the
    cycle counter alone and always finish. *)
Hypothesis poll_frame : forall s, exists r s',
  poll s = (Done r, s') /\ st_hw s' = st_hw s /\ n_cyc s' = n_cyc s.

Lemma busy_wait_loop_ends : forall k fuel started s,
  (k < fuel)%nat ->
  cycles <= wrapping_sub (hw_cyc (st_hw s) (n_cyc s + k)) started ->
  exists r s', busy_wait_loop fuel poll started cycles s = (Done r, s').
Proof.
  induction k as [|k IH]; intros fuel started s Hk Hreach;
    (destruct fuel as [|fuel]; [lia|]);
    cbn [busy_wait_loop]; unfold bind at 1;
    destruct (poll_frame s) as (r1 & s1 & Hp & Hhw & Hcyc); rewrite Hp;
    (destruct (is_would_block r1); cbv [negb]; [|eexists _, _; reflexivity]);
    unfold bind, cycle_count; rewrite Hhw, Hcyc.
  - rewrite Nat.add_0_r in Hreach.
    apply Z.leb_le in Hreach; rewrite Hreach. eexists _, _; reflexivity.
  - destruct (cycles <=? _); [eexists _, _; reflexivity|].
    apply IH; simpl; [lia|].
    replace (S (n_cyc s + k))%nat with (n_cyc s + S k)%nat by lia.
    exact Hreach.
Qed.

End BusyWait.

(** C4: a bounded busy-wait samples the cycle counter once before polling
    ([started]); whenever it finishes, its run is a [bw_spec] run: at least
    one poll, it stops at the first poll that is not "not ready" and returns
    that result, and it returns "not ready" only when the wrapping difference
    between the latest sample and [started] is at least the budget.  For a
    poll that leaves the counter alone, the wait finishes as soon as some
    sample of the counter is the budget past [started], after at most that
    many polls. *)
Theorem busy_wait_cycles_bounded (poll : M (NbResult unit)) (cycles : Z)
  (poll_frame : forall s, exists r s',
     poll s = (Done r, s') /\ st_hw s' = st_hw s /\ n_cyc s' = n_cyc s) :
  (forall s r s',
     busy_wait_cycles poll cycles s = (Done r, s') ->
     let started := hw_cyc (st_hw s) (n_cyc s) in
     exists s0 n, cycle_count s = (Done started, s0) /\ (1 <= n)%nat /\
       bw_spec poll started cycles s0 r s' n) /\
  (forall s k,
     (k < st_fuel s)%nat ->
     cycles <= wrapping_sub (hw_cyc (st_hw s) (n_cyc s + 1 + k))
                            (hw_cyc (st_hw s) (n_cyc s)) ->
     exists r s' n,
       busy_wait_cycles poll cycles s = (Done r, s') /\ (1 <= n <= S k)%nat /\
       bw_spec poll (hw_cyc (st_hw s) (n_cyc s)) cycles
         (snd (cycle_count s)) r s' n).
Proof.
  split.
  - intros s r s' H started.
    unfold busy_wait_cycles, bind at 1 in H.
    destruct (cycle_count s) as [[st| |] s0] eqn:Hc; try discriminate.
    unfold cycle_count in Hc; injection Hc as <- <-.
    simpl in H.
    destruct (busy_wait_loop_sound _ _ _ _ _ _ _ H) as [n [Hn Hs]].
    exists (mkSt (st_hw s) (n_stat0 s) (n_ctl0 s) (n_data s) (S (n_cyc s))
              (st_fuel s) (EvCycRead (hw_cyc (st_hw s) (n_cyc s)) :: trace s)), n.
    repeat split; auto; lia.
  - intros s k Hk Hreach.
    destruct (busy_wait_loop_ends poll cycles poll_frame k (S k)
                (hw_cyc (st_hw s) (n_cyc s)) (snd (cycle_count s)))
      as (r & s' & H); [lia| |].
    { simpl. replace (S (n_cyc s + k))%nat with (n_cyc s + 1 + k)%nat by lia.
      exact Hreach. }
    destruct (busy_wait_loop_sound _ _ _ _ _ _ _ H) as [n [Hn Hs]].
    exists r, s', n. split; [|split; [lia|exact Hs]].
    unfold busy_wait_cycles, bind, get_fuel.
    cbn [cycle_count snd st_fuel] in *.
    eapply busy_wait_loop_mono; [|exact H]. lia.
Qed.

Lemma read_first_bytes_leading (b : BlockingI2c) : forall l s,
  read_first_bytes b l s = read_leading b (length l) s.
Proof.
  induction l as [|x l IH]; intros s; [reflexivity|].
  cbn [read_first_bytes read_leading length].
  mstep. mstep. unfold try_, bind. rewrite IH. reflexivity.
Qed.

(** C1: for every buffer of length [n >= 3], [read] is the sequence of
    spec 4.5: after START, address and the status reads, [n - 3] leading
    bytes are each read after a wait for "receive buffer not empty"; then a
    wait for "byte transfer complete", NAK, trailing byte 0, STOP, trailing
    byte 1, a wait for "receive buffer not empty", trailing byte 2, a wait
    for the STOP to complete and ACK again; the buffer returned is the
    [n - 3] leading bytes followed by the 3 trailing bytes. *)
Theorem read_ge3_refines (b : BlockingI2c) (addr : Z) (buffer : list Z)
  (Hlen : (3 <= length buffer)%nat) :
  forall s, read b addr buffer s = read_ge3_spec b addr (length buffer) s.
Proof.
  destruct buffer as [|x0 [|x1 [|x2 rest]]]; cbn [length] in Hlen; try lia.
  assert (Hsplit : (length rest <=? length (x0 :: x1 :: x2 :: rest))%nat = true)
    by (apply Nat.leb_le; simpl; lia).
  destruct (skipn (length rest) (x0 :: x1 :: x2 :: rest))
    as [|y0 [|y1 [|y2 [|y3 more]]]] eqn:Hs;
    try (assert (Hl := f_equal (@length Z) Hs);
         rewrite length_skipn in Hl; cbn [length] in Hl; lia).
  intros s. unfold read, read_ge3_spec.
  cbn [length].
  replace (S (S (S (length rest))) - 3)%nat with (length rest) by lia.
  do 5 mstep.
  unfold usize_sub at 1. cbn [Nat.leb]. rewrite bind_ret.
  replace (S (S (S (length rest))) - 3)%nat with (length rest) by lia.
  unfold split_at_mut at 1. rewrite Hsplit, bind_ret, Hs.
  rewrite (try_congr _ _ _ (read_first_bytes_leading b _)).
  rewrite length_firstn.
  replace (Nat.min (length rest) (length (x0 :: x1 :: x2 :: rest)))
    with (length rest) by (simpl; lia).
  do 4 mstep.
  unfold slice_set at 1; cbn [length Nat.ltb Nat.leb firstn skipn app].
  rewrite bind_ret. do 2 mstep.
  unfold slice_set at 1; cbn [length Nat.ltb Nat.leb firstn skipn app].
  rewrite bind_ret. do 2 mstep.
  unfold slice_set at 1; cbn [length Nat.ltb Nat.leb firstn skipn app].
  rewrite bind_ret. do 2 mstep. reflexivity.
Qed.

(** ** Event counts *)

Section Counts.

Variable p : Ev -> bool.

Lemma adds_ret {A} (a : A) : adds p 0 (ret a).
Proof. intros s a' s' H; injection H as _ <-; lia. Qed.

Lemma adds_emit e : adds p (if p e then 1 else 0) (emit e).
Proof.
  intros s o s' H; injection H as _ <-; unfold cnt; simpl.
  destruct (p e); simpl; lia.
Qed.

Lemma adds_bind {A B} c1 c2 (m : M A) (k : A -> M B) :
  adds p c1 m -> (forall a, adds p c2 (k a)) -> adds p (c1 + c2) (bind m k).
Proof.
  intros Hm Hk s b s' H; unfold bind in H.
  destruct (m s) as [[a| |] s1] eqn:E; try discriminate.
  apply Hk in H; apply Hm in E; lia.
Qed.

Lemma adds_try {A B} c1 c2 (m : M (NbResult A)) (k : A -> M (NbResult B)) :
  adds p c1 m -> (forall a, adds p c2 (k a)) ->
  forall s r s', try_ m k s = (Done r, s') ->
  cnt p s' = (cnt p s + c1)%nat \/ cnt p s' = (cnt p s + c1 + c2)%nat.
Proof.
  intros Hm Hk s r s' H; unfold try_, bind in H.
  destruct (m s) as [[[a|e]| |] s1] eqn:E; try discriminate.
  - apply Hk in H; apply Hm in E; lia.
  - injection H as _ <-; apply Hm in E; lia.
Qed.

Lemma adds_panic {A} : adds p 0 (@panic A).
Proof. intros s a s' H; discriminate. Qed.

Lemma adds0_bind {A B} (m : M A) (k : A -> M B) :
  adds p 0 m -> (forall a, adds p 0 (k a)) -> adds p 0 (bind m k).
Proof. intros Hm Hk; apply (adds_bind 0 0); assumption. Qed.

Lemma adds_emit0 e : p e = false -> adds p 0 (emit e).
Proof. intros He; generalize (adds_emit e); rewrite He; auto. Qed.

(** [p] holds of none of the events of reads and status clears. *)
Hypothesis p_reads : forall v b z f,
  p (EvStat0Read v) = false /\ p EvStat1Read = false /\
  p (EvDataRead z) = false /\ p (EvCtl0Read b) = false /\
  p (EvCycRead z) = false /\ p (EvStat0Clear f) = false.

Lemma adds_read_stat0 : adds p 0 read_stat0.
Proof.
  intros s a s' H; injection H as _ <-; unfold cnt; simpl.
  destruct (p_reads (hw_stat0 (st_hw s) (n_stat0 s)) true 0 FBerr)
    as (-> & _); simpl; lia.
Qed.

Lemma adds_read_ctl0_stop : adds p 0 read_ctl0_stop.
Proof.
  intros s a s' H; injection H as _ <-; unfold cnt; simpl.
  destruct (p_reads (mkStat0 false false false false false false false false false)
              (hw_stop (st_hw s) (n_ctl0 s)) 0 FBerr) as (_ & _ & _ & -> & _).
  simpl; lia.
Qed.

Lemma adds_read_data : adds p 0 read_data.
Proof.
  intros s a s' H; injection H as _ <-; unfold cnt; simpl.
  destruct (p_reads (mkStat0 false false false false false false false false false)
              true (hw_data (st_hw s) (n_data s)) FBerr) as (_ & _ & -> & _).
  simpl; lia.
Qed.

Lemma adds_cycle_count : adds p 0 cycle_count.
Proof.
  intros s a s' H; injection H as _ <-; unfold cnt; simpl.
  destruct (p_reads (mkStat0 false false false false false false false false false)
              true (hw_cyc (st_hw s) (n_cyc s)) FBerr) as (_ & _ & _ & _ & -> & _).
  simpl; lia.
Qed.

Lemma adds_wait_for_flag flag : adds p 0 (wait_for_flag flag).
Proof.
  intros s a s' H. rewrite wait_for_flag_priority in H.
  injection H as _ <-. unfold cnt; simpl.
  set (v := hw_stat0 (st_hw s) (n_stat0 s)).
  destruct (p_reads v true 0 FBerr) as (Hr & _).
  unfold decode_clears; destruct (highest_error v) as [e|]; simpl;
    [destruct (p_reads v true 0 (error_flag e)) as (_ & _ & _ & _ & _ & Hc);
     rewrite Hc|]; rewrite Hr; lia.
Qed.

Lemma adds_wait_for_stop : adds p 0 wait_for_stop.
Proof.
  unfold wait_for_stop. replace 0%nat with (0 + 0)%nat by reflexivity.
  apply adds_bind; [apply adds_read_ctl0_stop|].
  intros []; apply adds_ret.
Qed.

Lemma adds_busy_wait_loop poll started cycles :
  adds p 0 poll -> forall fuel, adds p 0 (busy_wait_loop fuel poll started cycles).
Proof.
  intros Hp fuel; induction fuel as [|fuel IH]; intros s a s' H;
    [discriminate|].
  cbn [busy_wait_loop] in H. unfold bind in H.
  destruct (poll s) as [[r| |] s1] eqn:E; try discriminate.
  apply Hp in E.
  destruct (negb (is_would_block r)).
  - injection H as _ <-; lia.
  - destruct (cycle_count s1) as [[now| |] s2] eqn:C; try discriminate.
    apply adds_cycle_count in C.
    destruct (cycles <=? wrapping_sub now started).
    + injection H as _ <-; lia.
    + apply IH in H; lia.
Qed.

Lemma adds_busy_wait_cycles poll cycles :
  adds p 0 poll -> adds p 0 (busy_wait_cycles poll cycles).
Proof.
  intros Hp. unfold busy_wait_cycles.
  replace 0%nat with (0 + (0 + 0))%nat by reflexivity.
  apply adds_bind; [apply adds_cycle_count|]; intros started.
  apply adds_bind; [intros s a s' H; injection H as _ <-; lia|]; intros fuel.
  apply adds_busy_wait_loop; exact Hp.
Qed.

End Counts.

(** Proves [adds _ 0 m] by going through the code of [m]. *)
Ltac adds0 H :=
  repeat match goal with
  | |- adds _ 0 (bind _ _) => apply adds0_bind; [|intros ?]
  | |- adds _ 0 (try_ _ _) => unfold try_
  | |- adds _ 0 (ret _) => apply adds_ret
  | |- adds _ 0 panic => apply adds_panic
  | |- adds _ 0 (emit _) => apply adds_emit0; reflexivity
  | |- adds _ 0 read_stat0 => apply (adds_read_stat0 _ H)
  | |- adds _ 0 read_data => apply (adds_read_data _ H)
  | |- adds _ 0 (busy_wait_cycles _ _) => apply (adds_busy_wait_cycles _ H)
  | |- adds _ 0 (wait_for_flag _) => apply (adds_wait_for_flag _ H)
  | |- adds _ 0 wait_for_stop => apply (adds_wait_for_stop _ H)
  | |- adds _ 0 (match ?x with _ => _ end) => destruct x
  | |- adds _ 0 (let _ := _ in _) => cbv zeta
  | |- adds _ 0 (start_loop _ _ _) => fail 1
  | |- adds _ 0 (write_rest _ _) => fail 1
  | |- adds ?p 0 ?m =>
      let h := eval red in m in
      progress change (adds p 0 h)
  end.


Lemma reads_not_soft_reset : forall v b z f,
  is_soft_reset (EvStat0Read v) = false /\ is_soft_reset EvStat1Read = false /\
  is_soft_reset (EvDataRead z) = false /\ is_soft_reset (EvCtl0Read b) = false /\
  is_soft_reset (EvCycRead z) = false /\ is_soft_reset (EvStat0Clear f) = false.
Proof. repeat split. Qed.

Lemma reads_not_start : forall v b z f,
  is_start (EvStat0Read v) = false /\ is_start EvStat1Read = false /\
  is_start (EvDataRead z) = false /\ is_start (EvCtl0Read b) = false /\
  is_start (EvCycRead z) = false /\ is_start (EvStat0Clear f) = false.
Proof. repeat split. Qed.

Lemma reads_not_stop : forall v b z f,
  is_stop (EvStat0Read v) = false /\ is_stop EvStat1Read = false /\
  is_stop (EvDataRead z) = false /\ is_stop (EvCtl0Read b) = false /\
  is_stop (EvCycRead z) = false /\ is_stop (EvStat0Clear f) = false.
Proof. repeat split. Qed.

Lemma init_adds_soft_reset i : adds is_soft_reset 0 (init i).
Proof.
  unfold init, u16_add, u16_mul, u32_mul, div_checked.
  adds0 reads_not_soft_reset.
Qed.

Lemma init_adds_start i : adds is_start 0 (init i).
Proof.
  unfold init, u16_add, u16_mul, u32_mul, div_checked.
  adds0 reads_not_start.
Qed.

Lemma reset_adds_soft_reset i : adds is_soft_reset 1 (reset i).
Proof.
  unfold reset. change 1%nat with (1 + (0 + 0))%nat.
  apply adds_bind; [apply adds_emit|]; intros _.
  apply adds_bind; [apply adds_emit|]; intros _.
  apply init_adds_soft_reset.
Qed.

Lemma reset_adds_start i : adds is_start 0 (reset i).
Proof. unfold reset. adds0 reads_not_start. Qed.

Lemma start_loop_S b k last :
  start_loop b (S k) last =
    (send_start ;;
     last_ret <- busy_wait_cycles wait_after_sent_start (start_timeout b) ;;
     if is_err last_ret then reset (nb b) ;; start_loop b k last_ret
     else ret last_ret).
Proof. reflexivity. Qed.

Lemma start_loop_attempts (b : BlockingI2c) : forall k last s,
  start_loop b (S k) last s = start_attempts b k s.
Proof.
  induction k as [|k IH]; intros last s; rewrite start_loop_S;
    cbn [start_attempts];
    do 2 mstep;
    (match goal with r : NbResult unit |- _ => destruct r as [[]|e] end;
     [reflexivity|]); cbn [is_err];
    mstep; [reflexivity|apply IH].
Qed.

Lemma start_loop_all_fail (b : BlockingI2c) : forall k last s e s',
  start_loop b k last s = (Done (Err e), s') ->
  cnt is_soft_reset s' = (cnt is_soft_reset s + k)%nat /\
  cnt is_start s' = (cnt is_start s + k)%nat.
Proof.
  induction k as [|k IH]; intros last s e s' H; cbn [start_loop] in H.
  - injection H as _ <-; lia.
  - unfold bind at 1 in H.
    destruct (send_start s) as [[[]| |] s1] eqn:E1; try discriminate.
    assert (R1 := adds_emit is_soft_reset EvStart _ _ _ E1).
    assert (S1 := adds_emit is_start EvStart _ _ _ E1).
    unfold bind at 1 in H.
    destruct (busy_wait_cycles wait_after_sent_start (start_timeout b) s1)
      as [[r| |] s2] eqn:E2; try discriminate.
    assert (R2 := adds_busy_wait_cycles is_soft_reset reads_not_soft_reset
                    _ _ (adds_wait_for_flag _ reads_not_soft_reset _) _ _ _ E2).
    assert (S2 := adds_busy_wait_cycles is_start reads_not_start
                    _ _ (adds_wait_for_flag _ reads_not_start _) _ _ _ E2).
    destruct (is_err r) eqn:Er.
    + unfold bind at 1 in H.
      destruct (reset (nb b) s2) as [[[]| |] s3] eqn:E3; try discriminate.
      assert (R3 := reset_adds_soft_reset _ _ _ _ E3).
      assert (S3 := reset_adds_start _ _ _ _ E3).
      destruct (IH _ _ _ _ H) as [R4 S4].
      cbn in R1, S1. lia.
    + injection H as -> _. discriminate.
Qed.

(** C2: with [start_retries >= 1], [send_start_and_wait] is START with at
    most [start_retries] attempts: each attempt issues START and waits for
    the start flag within [start_timeout]; a failed attempt soft-resets the
    peripheral, a successful one ends the retries with success, and after
    [start_retries] failed attempts the error of the last one is returned.
    When the result is an error, exactly [start_retries] soft resets and
    [start_retries] STARTs have been issued. *)
Theorem send_start_and_wait_retries (b : BlockingI2c)
  (Hr : (1 <= start_retries b)%nat) :
  (forall s, send_start_and_wait b s =
             start_attempts b (start_retries b - 1) s) /\
  (forall s e s', send_start_and_wait b s = (Done (Err e), s') ->
     cnt is_soft_reset s' = (cnt is_soft_reset s + start_retries b)%nat /\
     cnt is_start s' = (cnt is_start s + start_retries b)%nat).
Proof.
  split.
  - intros s; unfold send_start_and_wait.
    destruct (start_retries b) as [|k]; [lia|].
    rewrite Nat.sub_succ, Nat.sub_0_r. apply start_loop_attempts.
  - intros s e s'; apply start_loop_all_fail.
Qed.

Lemma init_adds_stop i : adds is_stop 0 (init i).
Proof.
  unfold init, u16_add, u16_mul, u32_mul, div_checked.
  adds0 reads_not_stop.
Qed.

Lemma start_loop_adds_stop b : forall k last, adds is_stop 0 (start_loop b k last).
Proof.
  induction k as [|k IH]; intros last; cbn [start_loop]; adds0 reads_not_stop.
  apply IH.
Qed.

Lemma write_rest_adds_stop b : forall bytes, adds is_stop 0 (write_rest b bytes).
Proof.
  induction bytes as [|x bytes IH]; cbn [write_rest]; adds0 reads_not_stop.
  apply IH.
Qed.

Lemma write_bytes_adds_stop b bytes : adds is_stop 0 (write_bytes_and_wait b bytes).
Proof.
  unfold write_bytes_and_wait. adds0 reads_not_stop.
  apply write_rest_adds_stop.
Qed.

Lemma ack_check_stop (m : M (NbResult unit)) :
  adds is_stop 0 m ->
  forall s r s',
  (ret_ <- m ;; (if is_ack_err ret_ then send_stop else ret tt) ;; ret ret_) s
    = (Done r, s') ->
  stop_on_ack r s s'.
Proof.
  intros Hm s r s' H. unfold bind at 1 in H.
  destruct (m s) as [[r1| |] s1] eqn:E; try discriminate.
  apply Hm in E. unfold stop_on_ack.
  destruct (is_ack_err r1) eqn:Ha; cbv [bind send_stop emit ret] in H;
    injection H as <- <-; rewrite Ha; unfold cnt in *; simpl; [|lia].
  split; [lia|eexists; reflexivity].
Qed.

Lemma send_addr_and_wait_stop b addr rd : forall s r s',
  send_addr_and_wait b addr rd s = (Done r, s') -> stop_on_ack r s s'.
Proof.
  intros s r s' H. unfold send_addr_and_wait, bind at 1 in H.
  destruct (read_stat0 s) as [[v| |] s1] eqn:E1; try discriminate.
  apply (adds_read_stat0 _ reads_not_stop) in E1.
  unfold bind at 1 in H.
  destruct (send_addr addr rd s1) as [[[]| |] s2] eqn:E2; try discriminate.
  apply (adds_emit0 is_stop (EvDataWrite _) eq_refl) in E2.
  apply ack_check_stop in H; [|adds0 reads_not_stop].
  unfold stop_on_ack in *; destruct (is_ack_err r); [|lia].
  destruct H as [H1 H2]; split; [lia|exact H2].
Qed.

(** C5: after an Acknowledge error in the address phase ([send_addr_and_wait])
    or, once START has succeeded, in the address or data phase of a write
    ([write_without_stop]), exactly one STOP has been issued, as the last
    event before the error is returned; with any other result no STOP has
    been issued. *)
Theorem ack_error_sends_stop (b : BlockingI2c) (addr : Z) (rd : bool)
  (bytes : list Z) :
  (forall s r s', send_addr_and_wait b addr rd s = (Done r, s') ->
     stop_on_ack r s s') /\
  (forall s s1 r s', send_start_and_wait b s = (Done (Ok tt), s1) ->
     write_without_stop b addr bytes s = (Done r, s') ->
     stop_on_ack r s s').
Proof.
  split; [apply send_addr_and_wait_stop|].
  intros s s1 r s' Hs H.
  assert (H0 := start_loop_adds_stop b _ _ _ _ _ Hs).
  unfold write_without_stop, try_ at 1, bind at 1 in H. rewrite Hs in H.
  unfold try_, bind at 1 in H.
  destruct (send_addr_and_wait b addr false s1) as [[[[]|e]| |] s2] eqn:E2;
    try discriminate.
  - apply send_addr_and_wait_stop in E2.
    apply ack_check_stop in H; [|apply write_bytes_adds_stop].
    unfold stop_on_ack in *; simpl in E2.
    destruct (is_ack_err r); [destruct H as [H1 H2]; split; [lia|exact H2]|lia].
  - apply send_addr_and_wait_stop in E2.
    cbv [ret] in H; injection H as <- <-.
    unfold stop_on_ack in *; destruct (is_ack_err (Err e));
      [destruct E2 as [H1 H2]; split; [lia|exact H2]|lia].
Qed.

(** C6 fails: the rise time is cast to u8 (255 MHz gives 0, not 256), the
    quotient is cast to u16 before the floor (8 MHz at 1 Hz gives 2304, not
    4000000), a frequency of 0 makes the division panic, and in fast mode
    [pclk1_MHz * 300] overflows a u16 at 219 MHz, so programming panics. *)
Lemma init_clock_claim_fails :
  ~ init_writes (mkI2c (Standard 100000) 255000000) idle_state
      (clock_claim (Standard 100000) 255000000) /\
  ~ init_writes (mkI2c (Standard 1) 8000000) idle_state
      (clock_claim (Standard 1) 8000000) /\
  ~ init_writes (mkI2c (Standard 0) 8000000) idle_state
      (clock_claim (Standard 0) 8000000) /\
  ~ init_writes (mkI2c (Fast 400000 Ratio2to1) 219000000) idle_state
      (clock_claim (Fast 400000 Ratio2to1) 219000000) /\
  fst (init (mkI2c (Fast 400000 Ratio2to1) 219000000) idle_state) = Panic.
Proof. repeat split; vm_compute; first [discriminate | reflexivity]. Qed.

Ltac decide_ifs :=
  repeat match goal with
  | |- context [if ?c then _ else _] =>
      let E := fresh "E" in
      destruct c eqn:E; cbv [ret panic];
      change (2 ^ 16) with 65536 in *; change (2 ^ 32) with 4294967296 in *;
      try (apply Z.ltb_lt in E || apply Z.ltb_ge in E ||
           apply Z.eqb_eq in E || apply Z.eqb_neq in E);
      try lia; try (exfalso; Z.div_mod_to_equations; lia)
  end.

(** Clock programming, for the claim of C6 and for construction. *)
Lemma init_clock_values_aux (m : Mode) (pclk : Z) (s : St)
  (Hp : 0 <= pclk < 2 ^ 32) (Hf : 0 < get_frequency m <= 400000)
  (Hfast : match m with Fast _ _ => pclk < 219000000 | Standard _ => True end) :
  init_writes (mkI2c m pclk) s (clock_cast m pclk) /\
  (pclk < 254000000 ->
   let f := get_frequency m in
   let q := match m with
            | Standard _ => pclk / (f * 2)
            | Fast _ Ratio2to1 => pclk / (f * 3)
            | Fast _ Ratio16to9 => pclk / (f * 25)
            end in
   q < 2 ^ 16 -> clock_cast m pclk = clock_claim m pclk).
Proof.
  assert (Hm : 0 <= pclk / 1000000 < 4295).
  { split; [apply Z.div_pos; lia|]. apply Z.div_lt_upper_bound; lia. }
  assert (Hu : as_u16 (pclk / 1000000) = pclk / 1000000)
    by (apply Z.mod_small; lia).
  split.
  - destruct m as [f|f [|]]; simpl in Hf;
      unfold init_writes, clock_cast, init, u16_add, u16_mul, u32_mul,
        div_checked, bind, emit, ret, set_trace;
      cbn [mode pclk1 get_frequency fst snd]; rewrite Hu; decide_ifs;
      try reflexivity.
  - intros H254 f q Hq.
    assert (Hq0 : 0 <= q).
    { subst q f; destruct m as [f|f [|]]; simpl in Hf |- *;
        apply Z.div_pos; lia. }
    assert (Hm2 : pclk / 1000000 < 254)
      by (apply Z.div_lt_upper_bound; lia).
    assert (Hr : 0 <= pclk / 1000000 * 300 / 1000 < 255).
    { split; [apply Z.div_pos; lia|]. apply Z.div_lt_upper_bound; lia. }
    change (2 ^ 16) with 65536 in Hq.
    destruct m as [f'|f' [|]]; simpl in Hf, Hfast; unfold clock_cast, clock_claim;
      subst q f; cbn [get_frequency] in *;
      rewrite (Z.mod_small (pclk / _) (2 ^ 16)) by lia;
      rewrite Z.mod_small by lia; reflexivity.
Qed.

(** A frequency of 0 makes clock programming panic (division by zero, or
    an earlier overflow). *)
Lemma init_freq_zero (m : Mode) (pclk : Z) (s : St) :
  get_frequency m = 0 -> fst (init (mkI2c m pclk) s) = Panic.
Proof.
  intros Hf. destruct m as [f|f [|]]; simpl in Hf; subst f;
    unfold init, bind, emit, u16_add, u16_mul, u32_mul, div_checked;
    cbn -[Z.ltb Z.div Z.modulo Z.pow];
    decide_ifs; reflexivity.
Qed.

(** In fast mode, [pclk1_MHz * 300] overflows a u16 from 219 MHz on. *)
Lemma init_fast_overflow (f : Z) (dc : DutyCycle) (pclk : Z) (s : St)
  (Hp : 0 <= pclk < 2 ^ 32) (H : 219000000 <= pclk) :
  fst (init (mkI2c (Fast f dc) pclk) s) = Panic.
Proof.
  assert (Hm : 219 <= pclk / 1000000 < 4295).
  { split; [apply Z.div_le_lower_bound; lia|].
    apply Z.div_lt_upper_bound; lia. }
  assert (Hu : as_u16 (pclk / 1000000) = pclk / 1000000)
    by (apply Z.mod_small; lia).
  unfold init, u16_mul, bind, emit.
  cbn [mode pclk1 get_frequency fst snd]. rewrite Hu.
  decide_ifs. reflexivity.
Qed.

(** C6 (amended): for [0 <= pclk1 < 2^32] and [0 < frequency <= 400 kHz]
    (in fast mode also [pclk1 < 219 MHz], below which [pclk1_MHz * 300]
    fits in a u16), clock programming writes the values of [clock_cast]:
    standard mode rise time [(pclk1_MHz + 1) mod 256] and divisor
    [max((pclk1 / (2 f)) mod 65536, 4)]; fast mode rise time
    [pclk1_MHz * 300 / 1000 + 1] and divisor [max((pclk1 / (3 f)) mod 65536, 1)]
    with the duty bit clear for [Ratio2to1], [max((pclk1 / (25 f)) mod 65536, 1)]
    with the duty bit set for [Ratio16to9], the fast bit set in both.  These
    are the claim's values when [pclk1 < 254 MHz] and the quotient is below
    [65536].  A frequency of 0 makes programming panic (division by zero),
    and so does, in fast mode, [pclk1 >= 219 MHz] (u16 overflow of
    [pclk1_MHz * 300]). *)
Theorem init_clock_values (m : Mode) (pclk : Z) (s : St)
  (Hp : 0 <= pclk < 2 ^ 32) :
  (0 < get_frequency m <= 400000 ->
   match m with Fast _ _ => pclk < 219000000 | Standard _ => True end ->
   init_writes (mkI2c m pclk) s (clock_cast m pclk) /\
   (pclk < 254000000 ->
    let f := get_frequency m in
    let q := match m with
             | Standard _ => pclk / (f * 2)
             | Fast _ Ratio2to1 => pclk / (f * 3)
             | Fast _ Ratio16to9 => pclk / (f * 25)
             end in
    q < 2 ^ 16 -> clock_cast m pclk = clock_claim m pclk)) /\
  (get_frequency m = 0 -> fst (init (mkI2c m pclk) s) = Panic) /\
  (match m with Fast _ _ => 219000000 <= pclk | Standard _ => False end ->
   fst (init (mkI2c m pclk) s) = Panic).
Proof.
  split; [intros Hf Hfast; exact (init_clock_values_aux m pclk s Hp Hf Hfast)|].
  split; [apply init_freq_zero|].
  destruct m as [f|f dc]; [contradiction|].
  intros H. exact (init_fast_overflow f dc pclk s Hp H).
Qed.


(** C7: [write_read] is the composition of spec 4.6: both slices empty is a
    no-op (state untouched, success); only [buffer] non-empty is exactly
    [read]; only [bytes] non-empty is the write without STOP, then STOP and
    the wait for it; both non-empty is the write without STOP, then [read]. *)
Theorem write_read_composition (b : BlockingI2c) (addr : Z)
  (bytes buffer : list Z) :
  (bytes = [] -> buffer = [] -> forall s,
     write_read b addr bytes buffer s = (Done (Ok buffer), s)) /\
  (bytes = [] -> buffer <> [] -> forall s,
     write_read b addr bytes buffer s = read b addr buffer s) /\
  (bytes <> [] -> buffer = [] -> forall s,
     write_read b addr bytes buffer s =
     (_ <-? write_without_stop b addr bytes ;;
      send_stop ;;
      _ <-? busy_wait_cycles wait_for_stop (data_timeout b) ;;
      ret (Ok buffer)) s) /\
  (bytes <> [] -> buffer <> [] -> forall s,
     write_read b addr bytes buffer s =
     (_ <-? write_without_stop b addr bytes ;; read b addr buffer) s).
Proof.
  unfold write_read.
  repeat split; intros H1 H2 s;
    destruct bytes as [|x xs]; try congruence;
    destruct buffer as [|y ys]; try congruence; cbn [is_empty negb].
  - reflexivity.
  - unfold try_ at 1; rewrite bind_ret. unfold try_, bind.
    destruct (read b addr (y :: ys) s) as [[[]| |] ?]; reflexivity.
  - reflexivity.
  - mstep. unfold try_, bind.
    destruct (read b addr (y :: ys) _) as [[[]| |] ?]; reflexivity.
Qed.

(** Construction aborts for every frequency above 400 kHz, but also for a
    frequency of 0 (division by zero) and, in fast mode, for
    [pclk1 >= 219 MHz] ([pclk1_MHz * 300] overflows a u16). *)
Lemma create_internal_claim_fails :
  ~ (forall m pclk s, 0 <= pclk < 2 ^ 32 -> 0 <= get_frequency m <= 400000 ->
     exists i s', create_internal m pclk s = (Done i, s')).
Proof.
  intros H.
  destruct (H (Standard 0) 8000000 idle_state) as (i & s' & E); [lia|simpl; lia|].
  vm_compute in E. discriminate.
Qed.

(** C8 (amended): construction first enables and resets the peripheral's
    bus clock, then checks [frequency <= 400 kHz]: above it aborts (panic);
    with [0 < frequency <= 400 kHz] (in fast mode also [pclk1 < 219 MHz]) it
    succeeds and runs clock programming; with frequency 0 it aborts, and in
    fast mode with [pclk1 >= 219 MHz] it aborts as well. *)
Theorem create_internal_checks (m : Mode) (pclk : Z) (s : St)
  (Hp : 0 <= pclk < 2 ^ 32) :
  let s1 := set_trace s (EvBusReset :: EvBusEnable :: trace s) in
  (400000 < get_frequency m -> create_internal m pclk s = (Panic, s1)) /\
  (0 < get_frequency m <= 400000 ->
   match m with Fast _ _ => pclk < 219000000 | Standard _ => True end ->
   exists s', init (mkI2c m pclk) s1 = (Done tt, s') /\
              create_internal m pclk s = (Done (mkI2c m pclk), s')) /\
  (get_frequency m = 0 -> fst (create_internal m pclk s) = Panic) /\
  (match m with Fast _ _ => 219000000 <= pclk | Standard _ => False end ->
   fst (create_internal m pclk s) = Panic).
Proof.
  intros s1. repeat split.
  - intros Hf. unfold create_internal, bind, emit.
    destruct (Z.leb_spec (get_frequency m) 400000); [lia|reflexivity].
  - intros Hf Hfast.
    destruct (init_clock_values_aux m pclk s1 Hp Hf Hfast) as [Hi _].
    unfold init_writes in Hi.
    destruct (clock_cast m pclk) as [[[rt clkc] dtcy] fast].
    eexists; split; [exact Hi|].
    assert (Hle : (get_frequency m <=? 400000) = true) by (apply Z.leb_le; lia).
    unfold create_internal, bind at 1 2, emit at 1 2. rewrite Hle.
    unfold s1, set_trace in Hi.
    cbn [st_hw n_stat0 n_ctl0 n_data n_cyc st_fuel trace].
    unfold bind at 1. rewrite Hi. reflexivity.
  - intros Hf. unfold create_internal, bind, emit.
    rewrite Hf. cbn -[init].
    destruct m as [f|f [|]]; simpl in Hf; subst f;
      unfold init, bind, emit, u16_add, u16_mul, u32_mul, div_checked;
      cbn -[Z.ltb Z.div Z.modulo Z.pow];
      decide_ifs; reflexivity.
  - destruct m as [f|f dc]; [contradiction|]. intros H.
    unfold create_internal, bind, emit.
    destruct (get_frequency (Fast f dc) <=? 400000); [|reflexivity].
    match goal with
    | |- context [init ?i ?s'] =>
        pose proof (init_fast_overflow f dc pclk s' Hp H) as Hi;
        destruct (init i s') as [o s'']
    end.
    cbn in Hi |- *. subst o. reflexivity.
Qed.

(** Reading into an empty slice: the length-0 case shares the code of the
    [buffer_len] branch, and [buffer_len - 3] overflows after the START and
    address phases and the ACK / status accesses. *)
Lemma read_empty_eq (b : BlockingI2c) (addr : Z) : forall s,
  read b addr [] s =
  (_ <-? send_start_and_wait b ;;
   _ <-? send_addr_and_wait b addr true ;;
   emit (EvAcken true) ;; read_stat0 ;; read_stat1 ;; panic) s.
Proof.
  intros s. unfold read; cbn [length].
  do 2 mstep. do 3 mstep. reflexivity.
Qed.

(** Reading into an empty slice can return an error: a bus error while
    waiting for START is returned as [Err (Other Bus)]. *)
Lemma read_empty_claim_fails :
  fst (read (cfg 1) 80 [] bus_err_state) = Done (Err (Other Bus)).
Proof. vm_compute. reflexivity. Qed.

(** C9 (amended): [read] with an empty slice never succeeds: when the START
    phase fails it returns that error, when START succeeds and the address
    phase fails it returns the address phase's error (these are the only
    errors it returns), and when both succeed it panics (the
    [buffer_len - 3] overflow). *)
Theorem read_empty_panics (b : BlockingI2c) (addr : Z) :
  (forall s a s', read b addr [] s <> (Done (Ok a), s')) /\
  (forall s s1 s2, send_start_and_wait b s = (Done (Ok tt), s1) ->
     send_addr_and_wait b addr true s1 = (Done (Ok tt), s2) ->
     fst (read b addr [] s) = Panic) /\
  (forall s e s', read b addr [] s = (Done (Err e), s') ->
     (exists s1, send_start_and_wait b s = (Done (Err e), s1)) \/
     (exists s1, send_start_and_wait b s = (Done (Ok tt), s1) /\
                 send_addr_and_wait b addr true s1 = (Done (Err e), s'))) /\
  (forall s e s1, send_start_and_wait b s = (Done (Err e), s1) ->
     read b addr [] s = (Done (Err e), s1)) /\
  (forall s s1 e s2, send_start_and_wait b s = (Done (Ok tt), s1) ->
     send_addr_and_wait b addr true s1 = (Done (Err e), s2) ->
     read b addr [] s = (Done (Err e), s2)).
Proof.
  repeat split.
  - intros s a s' H. rewrite read_empty_eq in H.
    unfold try_ at 1, bind at 1 in H.
    destruct (send_start_and_wait b s) as [[[[]|e]| |] s1]; try discriminate.
    unfold try_ at 1, bind at 1 in H.
    destruct (send_addr_and_wait b addr true s1) as [[[[]|e]| |] s2];
      discriminate.
  - intros s s1 s2 H1 H2. rewrite read_empty_eq.
    unfold try_ at 1, bind at 1. rewrite H1.
    unfold try_ at 1, bind at 1. rewrite H2. reflexivity.
  - intros s e s' H. rewrite read_empty_eq in H.
    unfold try_ at 1, bind at 1 in H.
    destruct (send_start_and_wait b s) as [[[[]|e1]| |] s1] eqn:E1;
      try discriminate.
    + unfold try_ at 1, bind at 1 in H.
      destruct (send_addr_and_wait b addr true s1) as [[[[]|e2]| |] s2] eqn:E2;
        try discriminate.
      injection H as <- <-. right; exists s1; split; [reflexivity|exact E2].
    + injection H as <- <-. left; exists s1; reflexivity.
  - intros s e s1 H1. rewrite read_empty_eq.
    unfold try_ at 1, bind at 1. rewrite H1. reflexivity.
  - intros s s1 e s2 H1 H2. rewrite read_empty_eq.
    unfold try_ at 1, bind at 1. rewrite H1.
    unfold try_ at 1, bind at 1. rewrite H2. reflexivity.
Qed.

(** C10: with [start_retries = 0] the START procedure returns [WouldBlock]
    without touching the state (no START, no poll, no reset); so do [write],
    [read] and [write_read], except that [read] of two bytes has already
    armed POAP and ACK in CTL0 before it. *)
Theorem zero_retries_would_block (b : BlockingI2c) (addr : Z)
  (bytes buffer : list Z) (H0 : start_retries b = 0%nat) :
  (forall s, send_start_and_wait b s = (Done (Err WouldBlock), s)) /\
  (forall s, write b addr bytes s = (Done (Err WouldBlock), s)) /\
  (forall s, read b addr buffer s =
     (Done (Err WouldBlock),
      if (length buffer =? 2)%nat
      then set_trace s (EvPoapAcken true true :: trace s) else s)) /\
  (bytes <> [] \/ buffer <> [] -> forall s,
     write_read b addr bytes buffer s =
     (Done (Err WouldBlock),
      if is_empty bytes && (length buffer =? 2)%nat
      then set_trace s (EvPoapAcken true true :: trace s) else s)).
Proof.
  assert (Hs : forall s, send_start_and_wait b s = (Done (Err WouldBlock), s))
    by (intros s; unfold send_start_and_wait; rewrite H0; reflexivity).
  assert (Hw : forall s, write_without_stop b addr bytes s =
                         (Done (Err WouldBlock), s))
    by (intros s; unfold write_without_stop, try_ at 1, bind at 1;
        rewrite Hs; reflexivity).
  assert (Hr : forall s, read b addr buffer s =
     (Done (Err WouldBlock),
      if (length buffer =? 2)%nat
      then set_trace s (EvPoapAcken true true :: trace s) else s)).
  { intros s. unfold read.
    destruct buffer as [|x [|y [|z l]]]; cbn [length Nat.eqb];
      unfold try_ at 1, bind at 1; try rewrite Hs; try reflexivity.
    unfold emit; cbn beta iota. unfold try_ at 1, bind at 1.
    rewrite Hs; reflexivity. }
  repeat split; [exact Hs| | exact Hr|].
  - intros s. unfold write, try_ at 1, bind at 1. rewrite Hw. reflexivity.
  - intros Hne s. unfold write_read.
    destruct bytes as [|x xs]; cbn [is_empty negb andb].
    + destruct buffer as [|y ys]; [destruct Hne; congruence|].
      unfold try_ at 1; rewrite bind_ret; cbn [is_empty negb].
      unfold try_ at 1, bind at 1. rewrite Hr. reflexivity.
    + unfold try_ at 1, bind at 1. rewrite Hw. reflexivity.
Qed.

(** A poll of the status decoder leaves the hardware and the cycle counter
    alone. *)
Lemma wait_for_flag_frame (flag : Stat0 -> bool) : forall s, exists r s',
  wait_for_flag flag s = (Done r, s') /\ st_hw s' = st_hw s /\ n_cyc s' = n_cyc s.
Proof.
  intros s. unfold wait_for_flag, bind at 1, read_stat0.
  destruct (hw_stat0 (st_hw s) (n_stat0 s)) as [[] [] [] [] ? ? ? ? ?];
    cbv [berr lostarb aerr ouerr bind emit ret]; try destruct (flag _);
    do 2 eexists; repeat split.
Qed.

(** ** Concrete runs *)

Lemma read_ge3_refines_witness :
  (3 <= length [0; 0; 0; 0])%nat /\
  read (cfg 1) 80 [0; 0; 0; 0] ack_state =
  read_ge3_spec (cfg 1) 80 (length [0; 0; 0; 0]) ack_state.
Proof.
  split; [simpl; lia|].
  apply (read_ge3_refines (cfg 1) 80 [0; 0; 0; 0]). simpl; lia.
Defined.

Lemma send_start_and_wait_retries_witness :
  (1 <= start_retries (cfg 2))%nat /\
  send_start_and_wait (cfg 2) bus_err_state =
  start_attempts (cfg 2) 1 bus_err_state.
Proof.
  split; [simpl; lia|].
  destruct (send_start_and_wait_retries (cfg 2)) as [H _]; [simpl; lia|].
  exact (H bus_err_state).
Defined.

Lemma busy_wait_cycles_bounded_witness :
  (0 < st_fuel ack_state)%nat /\
  0 <= wrapping_sub (hw_cyc (st_hw ack_state) (n_cyc ack_state + 1 + 0))
                    (hw_cyc (st_hw ack_state) (n_cyc ack_state)) /\
  exists r s' n,
    busy_wait_cycles (wait_for_flag rbne) 0 ack_state = (Done r, s') /\
    (1 <= n <= 1)%nat /\
    bw_spec (wait_for_flag rbne) (hw_cyc (st_hw ack_state) (n_cyc ack_state)) 0
      (snd (cycle_count ack_state)) r s' n.
Proof.
  split; [simpl; lia|]. split; [apply Z.leb_le; reflexivity|].
  destruct (busy_wait_cycles_bounded (wait_for_flag rbne) 0
              (wait_for_flag_frame rbne)) as [_ H].
  apply (H ack_state 0%nat); [simpl; lia|apply Z.leb_le; reflexivity].
Defined.

Lemma ack_error_sends_stop_witness :
  send_addr_and_wait (cfg 1) 80 false nack_state =
    (Done (Err (Other Acknowledge)),
     snd (send_addr_and_wait (cfg 1) 80 false nack_state)) /\
  stop_on_ack (Err (Other Acknowledge)) nack_state
    (snd (send_addr_and_wait (cfg 1) 80 false nack_state)).
Proof.
  split; [vm_compute; reflexivity|].
  destruct (ack_error_sends_stop (cfg 1) 80 false [1]) as [H _].
  apply H. vm_compute. reflexivity.
Defined.

Lemma init_clock_values_witness :
  init_writes (mkI2c (Standard 100000) 8000000) idle_state
    (clock_cast (Standard 100000) 8000000) /\
  clock_cast (Standard 100000) 8000000 = clock_claim (Standard 100000) 8000000 /\
  fst (init (mkI2c (Standard 0) 8000000) idle_state) = Panic /\
  fst (init (mkI2c (Fast 400000 Ratio16to9) 219000000) idle_state) = Panic.
Proof.
  assert (Hp : 0 <= 8000000 < 2 ^ 32)
    by (split; [apply Z.leb_le|apply Z.ltb_lt]; reflexivity).
  assert (Hp' : 0 <= 219000000 < 2 ^ 32)
    by (split; [apply Z.leb_le|apply Z.ltb_lt]; reflexivity).
  assert (Hf : 0 < get_frequency (Standard 100000) <= 400000) by (simpl; lia).
  destruct (init_clock_values (Standard 100000) 8000000 idle_state Hp)
    as [H12 _].
  destruct (H12 Hf I) as [H1 H2].
  destruct (init_clock_values (Standard 0) 8000000 idle_state Hp)
    as (_ & H3 & _).
  destruct (init_clock_values (Fast 400000 Ratio16to9) 219000000 idle_state Hp')
    as (_ & _ & H4).
  split; [exact H1|]. split; [apply H2; [lia|vm_compute; reflexivity]|].
  split; [apply H3; reflexivity|apply H4; lia].
Defined.

Lemma write_read_composition_witness :
  write_read (cfg 1) 80 [] [] ack_state = (Done (Ok []), ack_state) /\
  write_read (cfg 1) 80 [] [0; 0; 0] ack_state =
  read (cfg 1) 80 [0; 0; 0] ack_state.
Proof.
  destruct (write_read_composition (cfg 1) 80 [] []) as [H1 _].
  destruct (write_read_composition (cfg 1) 80 [] [0; 0; 0]) as [_ [H2 _]].
  split; [apply H1; reflexivity|apply H2; [reflexivity|discriminate]].
Defined.

Lemma create_internal_checks_witness :
  (exists s', init (mkI2c (Standard 100000) 8000000)
                (set_trace idle_state (EvBusReset :: EvBusEnable :: trace idle_state))
              = (Done tt, s') /\
   create_internal (Standard 100000) 8000000 idle_state
   = (Done (mkI2c (Standard 100000) 8000000), s')) /\
  fst (create_internal (Standard 0) 8000000 idle_state) = Panic /\
  create_internal (Standard 400001) 8000000 idle_state =
  (Panic, set_trace idle_state (EvBusReset :: EvBusEnable :: trace idle_state)) /\
  fst (create_internal (Fast 400000 Ratio2to1) 219000000 idle_state) = Panic.
Proof.
  assert (Hp : 0 <= 8000000 < 2 ^ 32)
    by (split; [apply Z.leb_le|apply Z.ltb_lt]; reflexivity).
  assert (Hp' : 0 <= 219000000 < 2 ^ 32)
    by (split; [apply Z.leb_le|apply Z.ltb_lt]; reflexivity).
  destruct (create_internal_checks (Standard 100000) 8000000 idle_state Hp)
    as (_ & H2 & _).
  destruct (create_internal_checks (Standard 0) 8000000 idle_state Hp)
    as (_ & _ & H3 & _).
  destruct (create_internal_checks (Standard 400001) 8000000 idle_state Hp)
    as (H1 & _ & _).
  destruct (create_internal_checks (Fast 400000 Ratio2to1) 219000000 idle_state Hp')
    as (_ & _ & _ & H4).
  split; [apply H2; [simpl; lia|exact I]|].
  split; [apply H3; reflexivity|].
  split; [apply H1; simpl; lia|apply H4; lia].
Defined.

Lemma read_empty_panics_witness :
  (send_start_and_wait (cfg 1) ack_state =
     (Done (Ok tt), snd (send_start_and_wait (cfg 1) ack_state)) /\
   send_addr_and_wait (cfg 1) 80 true (snd (send_start_and_wait (cfg 1) ack_state)) =
     (Done (Ok tt), snd (send_addr_and_wait (cfg 1) 80 true
                           (snd (send_start_and_wait (cfg 1) ack_state)))) /\
   fst (read (cfg 1) 80 [] ack_state) = Panic) /\
  (send_start_and_wait (cfg 1) bus_err_state =
     (Done (Err (Other Bus)), snd (send_start_and_wait (cfg 1) bus_err_state)) /\
   read (cfg 1) 80 [] bus_err_state =
     (Done (Err (Other Bus)), snd (send_start_and_wait (cfg 1) bus_err_state))) /\
  (send_start_and_wait (cfg 1) addr_nack_state =
     (Done (Ok tt), snd (send_start_and_wait (cfg 1) addr_nack_state)) /\
   send_addr_and_wait (cfg 1) 80 true
     (snd (send_start_and_wait (cfg 1) addr_nack_state)) =
     (Done (Err (Other Acknowledge)),
      snd (send_addr_and_wait (cfg 1) 80 true
             (snd (send_start_and_wait (cfg 1) addr_nack_state)))) /\
   read (cfg 1) 80 [] addr_nack_state =
     (Done (Err (Other Acknowledge)),
      snd (send_addr_and_wait (cfg 1) 80 true
             (snd (send_start_and_wait (cfg 1) addr_nack_state))))).
Proof.
  destruct (read_empty_panics (cfg 1) 80) as (_ & H & _ & H4 & H5).
  split; [split; [vm_compute; reflexivity|]; split; [vm_compute; reflexivity|]|].
  { apply (H ack_state (snd (send_start_and_wait (cfg 1) ack_state))
             (snd (send_addr_and_wait (cfg 1) 80 true
                     (snd (send_start_and_wait (cfg 1) ack_state)))));
      vm_compute; reflexivity. }
  split.
  - split; [vm_compute; reflexivity|].
    apply H4. vm_compute. reflexivity.
  - split; [vm_compute; reflexivity|]. split; [vm_compute; reflexivity|].
    apply (H5 addr_nack_state (snd (send_start_and_wait (cfg 1) addr_nack_state)));
      vm_compute; reflexivity.
Defined.

Lemma zero_retries_would_block_witness :
  start_retries (cfg 0) = 0%nat /\
  write (cfg 0) 80 [1] ack_state = (Done (Err WouldBlock), ack_state) /\
  write_read (cfg 0) 80 [] [0; 0] ack_state =
  (Done (Err WouldBlock),
   set_trace ack_state (EvPoapAcken true true :: trace ack_state)).
Proof.
  split; [reflexivity|].
  destruct (zero_retries_would_block (cfg 0) 80 [1] [0; 0]) as (_ & H1 & _);
    [reflexivity|].
  destruct (zero_retries_would_block (cfg 0) 80 [] [0; 0]) as (_ & _ & _ & H2);
    [reflexivity|].
  split; [apply H1|apply H2; right; discriminate].
Defined.

(** ** What goes out on the bus *)

Section Emits.

Variable sel : Ev -> list Ev.

Lemma out_cons (s s' : St) (e : Ev) :
  trace s' = e :: trace s -> out sel s' = out sel s ++ sel e.
Proof.
  intros Ht; unfold out; rewrite Ht; cbn [rev]. rewrite flat_map_app.
  cbn [flat_map]. rewrite app_nil_r; reflexivity.
Qed.

Lemma emits_ret {A} (a : A) : emits sel [] (ret a).
Proof. intros s a' s' H; injection H as _ <-; rewrite app_nil_r; reflexivity. Qed.

Lemma emits_emit e : emits sel (sel e) (emit e).
Proof. intros s a s' H; injection H as _ <-; apply out_cons; reflexivity. Qed.

Lemma emits_panic {A} l : emits sel l (@panic A).
Proof. intros s a s' H; discriminate. Qed.

Lemma emits_bind {A B} l1 l2 (m : M A) (k : A -> M B) :
  emits sel l1 m -> (forall a, emits sel l2 (k a)) ->
  emits sel (l1 ++ l2) (bind m k).
Proof.
  intros Hm Hk s b s' H; unfold bind in H.
  destruct (m s) as [[a| |] s1] eqn:E; try discriminate.
  rewrite (Hk _ _ _ _ H), (Hm _ _ _ E), app_assoc; reflexivity.
Qed.

Lemma emits0_bind {A B} (m : M A) (k : A -> M B) :
  emits sel [] m -> (forall a, emits sel [] (k a)) -> emits sel [] (bind m k).
Proof. intros Hm Hk; apply (emits_bind [] []); assumption. Qed.

Lemma emits_emit0 e : sel e = [] -> emits sel [] (emit e).
Proof. intros He; generalize (emits_emit e); rewrite He; auto. Qed.

Lemma emits_ok_of {A} l (m : M (NbResult A)) : emits sel l m -> emits_ok sel l m.
Proof. intros Hm s a s' H; exact (Hm _ _ _ H). Qed.

Lemma emits_ok_bind {A B} l1 l2 (m : M A) (k : A -> M (NbResult B)) :
  emits sel l1 m -> (forall a, emits_ok sel l2 (k a)) ->
  emits_ok sel (l1 ++ l2) (bind m k).
Proof.
  intros Hm Hk s b s' H; unfold bind in H.
  destruct (m s) as [[a| |] s1] eqn:E; try discriminate.
  rewrite (Hk _ _ _ _ H), (Hm _ _ _ E), app_assoc; reflexivity.
Qed.

Lemma emits_ok_try {A B} l1 l2 (m : M (NbResult A)) (k : A -> M (NbResult B)) :
  emits_ok sel l1 m -> (forall a, emits_ok sel l2 (k a)) ->
  emits_ok sel (l1 ++ l2) (try_ m k).
Proof.
  intros Hm Hk s b s' H; unfold try_, bind in H.
  destruct (m s) as [[[a|e]| |] s1] eqn:E; try discriminate.
  rewrite (Hk _ _ _ _ H), (Hm _ _ _ E), app_assoc; reflexivity.
Qed.

Lemma emits_ok_ret {A} (a : A) : emits_ok sel [] (ret (Ok a)).
Proof. apply emits_ok_of, emits_ret. Qed.

(** [sel] chooses none of the events of reads and status clears. *)
Hypothesis sel_reads : forall v b z f,
  sel (EvStat0Read v) = [] /\ sel EvStat1Read = [] /\
  sel (EvDataRead z) = [] /\ sel (EvCtl0Read b) = [] /\
  sel (EvCycRead z) = [] /\ sel (EvStat0Clear f) = [].

Lemma emits_read_stat0 : emits sel [] read_stat0.
Proof.
  intros s a s' H; injection H as _ <-.
  erewrite (out_cons s _ (EvStat0Read _)) by reflexivity.
  rewrite (proj1 (sel_reads _ true 0 FBerr)).
  reflexivity.
Qed.

Lemma emits_read_data : emits sel [] read_data.
Proof.
  intros s a s' H; injection H as _ <-.
  erewrite (out_cons s _ (EvDataRead _)) by reflexivity.
  destruct (sel_reads (hw_stat0 (st_hw s) 0) true (hw_data (st_hw s) (n_data s))
              FBerr) as (_ & _ & -> & _).
  reflexivity.
Qed.

Lemma emits_read_ctl0_stop : emits sel [] read_ctl0_stop.
Proof.
  intros s a s' H; injection H as _ <-.
  erewrite (out_cons s _ (EvCtl0Read _)) by reflexivity.
  destruct (sel_reads (hw_stat0 (st_hw s) 0) (hw_stop (st_hw s) (n_ctl0 s)) 0
              FBerr) as (_ & _ & _ & -> & _).
  reflexivity.
Qed.

Lemma emits_cycle_count : emits sel [] cycle_count.
Proof.
  intros s a s' H; injection H as _ <-.
  erewrite (out_cons s _ (EvCycRead _)) by reflexivity.
  destruct (sel_reads (hw_stat0 (st_hw s) 0) true (hw_cyc (st_hw s) (n_cyc s))
              FBerr) as (_ & _ & _ & _ & -> & _).
  reflexivity.
Qed.

Lemma emits_wait_for_flag flag : emits sel [] (wait_for_flag flag).
Proof.
  unfold wait_for_flag. apply emits0_bind; [apply emits_read_stat0|intros v].
  destruct (sel_reads v true 0 FBerr) as (_ & _ & _ & _ & _ & Hb).
  destruct (sel_reads v true 0 FLostarb) as (_ & _ & _ & _ & _ & Hl).
  destruct (sel_reads v true 0 FAerr) as (_ & _ & _ & _ & _ & Ha).
  destruct (sel_reads v true 0 FOuerr) as (_ & _ & _ & _ & _ & Ho).
  repeat match goal with
  | |- emits _ _ (if ?c then _ else _) => destruct c
  | |- emits _ _ (bind _ _) =>
      apply emits0_bind; [apply emits_emit0; assumption|intros ?]
  | |- emits _ _ (ret _) => apply emits_ret
  end.
Qed.

Lemma emits_wait_for_stop : emits sel [] wait_for_stop.
Proof.
  unfold wait_for_stop. apply emits0_bind; [apply emits_read_ctl0_stop|].
  intros []; apply emits_ret.
Qed.

Lemma emits_busy_wait_loop poll started cycles :
  emits sel [] poll -> forall fuel, emits sel [] (busy_wait_loop fuel poll started cycles).
Proof.
  intros Hp fuel; induction fuel as [|fuel IH]; [intros s a s' H; discriminate|].
  cbn [busy_wait_loop]. apply emits0_bind; [exact Hp|intros r].
  destruct (negb (is_would_block r)); [apply emits_ret|].
  apply emits0_bind; [apply emits_cycle_count|intros now].
  destruct (cycles <=? wrapping_sub now started); [apply emits_ret|exact IH].
Qed.

Lemma emits_busy_wait_cycles poll cycles :
  emits sel [] poll -> emits sel [] (busy_wait_cycles poll cycles).
Proof.
  intros Hp. unfold busy_wait_cycles.
  apply emits0_bind; [apply emits_cycle_count|intros started].
  apply emits0_bind; [intros s a s' H; injection H as _ <-;
                      rewrite app_nil_r; reflexivity|intros fuel].
  apply emits_busy_wait_loop; exact Hp.
Qed.

End Emits.

Lemma bus_sel_reads : forall v b z f,
  bus_sel (EvStat0Read v) = [] /\ bus_sel EvStat1Read = [] /\
  bus_sel (EvDataRead z) = [] /\ bus_sel (EvCtl0Read b) = [] /\
  bus_sel (EvCycRead z) = [] /\ bus_sel (EvStat0Clear f) = [].
Proof. repeat split. Qed.

(** Proves [emits _ [] m] by going through the code of [m]. *)
Ltac emits0 H :=
  repeat match goal with
  | |- emits _ [] (bind _ _) => apply emits0_bind; [|intros ?]
  | |- emits _ [] (try_ _ _) => unfold try_
  | |- emits _ [] (ret _) => apply emits_ret
  | |- emits _ [] panic => apply emits_panic
  | |- emits _ [] (emit _) => apply emits_emit0; reflexivity
  | |- emits _ [] read_stat0 => apply (emits_read_stat0 _ H)
  | |- emits _ [] read_data => apply (emits_read_data _ H)
  | |- emits _ [] (busy_wait_cycles _ _) => apply (emits_busy_wait_cycles _ H)
  | |- emits _ [] (wait_for_flag _) => apply (emits_wait_for_flag _ H)
  | |- emits _ [] wait_for_stop => apply (emits_wait_for_stop _ H)
  | |- emits _ [] (match ?x with _ => _ end) => destruct x
  | |- emits _ [] (let _ := _ in _) => cbv zeta
  | |- emits _ [] (start_loop _ _ _) => fail 1
  | |- emits _ [] (read_first_bytes _ _) => fail 1
  | |- emits ?p [] ?m =>
      let h := eval red in m in
      progress change (emits p [] h)
  end.

Lemma init_emits i : emits bus_sel [] (init i).
Proof. emits0 bus_sel_reads. Qed.

Lemma reset_emits i : emits bus_sel [] (reset i).
Proof.
  unfold reset. apply emits0_bind; [apply emits_emit0; reflexivity|intros _].
  apply emits0_bind; [apply emits_emit0; reflexivity|intros _].
  apply init_emits.
Qed.

Lemma start_loop_emits b : forall k last, emits bus_sel [] (start_loop b k last).
Proof.
  induction k as [|k IH]; intros last; cbn [start_loop]; [apply emits_ret|].
  emits0 bus_sel_reads; apply reset_emits || apply IH.
Qed.

Lemma send_start_and_wait_emits b : emits bus_sel [] (send_start_and_wait b).
Proof. apply start_loop_emits. Qed.

Lemma read_first_bytes_emits b : forall l, emits bus_sel [] (read_first_bytes b l).
Proof.
  induction l as [|x l IH]; cbn [read_first_bytes]; emits0 bus_sel_reads.
  apply IH.
Qed.

Lemma emits_ok_eq {A} sel l1 l2 (m : M (NbResult A)) :
  l1 = l2 -> emits_ok sel l1 m -> emits_ok sel l2 m.
Proof. intros <-; auto. Qed.

(** The check [if ret == Err(Acknowledge) { send_stop() }; ret] adds nothing
    to a run that succeeds. *)
Lemma emits_ok_ack_check {A} sel l (m : M (NbResult A)) :
  emits_ok sel l m ->
  emits_ok sel l (r <- m ;; (if is_ack_err r then send_stop else ret tt) ;; ret r).
Proof.
  intros Hm s a s' H; unfold bind in H.
  destruct (m s) as [[r| |] s1] eqn:E; try discriminate.
  destruct r as [a'|e]; cbv [is_ack_err ret] in H.
  - injection H as _ <-. apply Hm in E. exact E.
  - destruct e as [|[]]; cbv [send_stop emit] in H; discriminate.
Qed.

Lemma send_addr_and_wait_emits b addr rd :
  emits_ok bus_sel [EvDataWrite (addr_byte addr rd)] (send_addr_and_wait b addr rd).
Proof.
  unfold send_addr_and_wait.
  apply (emits_ok_bind _ [] [_]); [apply (emits_read_stat0 _ bus_sel_reads)|intros _].
  apply (emits_ok_bind _ [_] []); [apply emits_emit|intros _].
  apply emits_ok_ack_check, emits_ok_of.
  emits0 bus_sel_reads.
Qed.

Lemma write_rest_emits b : forall bytes,
  emits_ok bus_sel (map EvDataWrite bytes) (write_rest b bytes).
Proof.
  induction bytes as [|x xs IH]; cbn [write_rest map]; [apply emits_ok_ret|].
  apply (emits_ok_try _ [] (_ :: _)); [apply emits_ok_of; emits0 bus_sel_reads|].
  intros _. apply (emits_ok_bind _ [_] _); [apply emits_emit|intros _]; exact IH.
Qed.

Lemma write_bytes_and_wait_emits b bytes :
  emits_ok bus_sel (map EvDataWrite bytes) (write_bytes_and_wait b bytes).
Proof.
  unfold write_bytes_and_wait.
  apply (emits_ok_bind _ [] _); [apply (emits_read_stat0 _ bus_sel_reads)|intros _].
  apply (emits_ok_bind _ [] _); [apply emits_emit0; reflexivity|intros _].
  destruct bytes as [|x xs]; [apply emits_ok_of, emits_panic|].
  apply (emits_ok_bind _ [_] _); [apply emits_emit|intros _].
  apply (emits_ok_eq _ (map EvDataWrite xs ++ [])); [apply app_nil_r|].
  apply emits_ok_try; [apply write_rest_emits|intros _].
  apply (emits_ok_try _ [] []); [apply emits_ok_of; emits0 bus_sel_reads|].
  intros _; apply emits_ok_ret.
Qed.

Lemma write_without_stop_emits b addr bytes :
  emits_ok bus_sel (EvDataWrite (addr_byte addr false) :: map EvDataWrite bytes)
    (write_without_stop b addr bytes).
Proof.
  unfold write_without_stop.
  apply (emits_ok_try _ [] _);
    [apply emits_ok_of, send_start_and_wait_emits|intros _].
  apply (emits_ok_try _ [_] _); [apply send_addr_and_wait_emits|intros _].
  apply emits_ok_ack_check, write_bytes_and_wait_emits.
Qed.

(** Goes through a run that succeeds, collecting the bus output. *)
Ltac eok :=
  repeat match goal with
  | |- emits_ok _ _ (try_ (send_start_and_wait _) _) =>
      eapply emits_ok_try; [apply emits_ok_of, send_start_and_wait_emits|intros ?]
  | |- emits_ok _ _ (try_ (send_addr_and_wait _ _ _) _) =>
      eapply emits_ok_try; [apply send_addr_and_wait_emits|intros ?]
  | |- emits_ok _ _ (try_ (write_without_stop _ _ _) _) =>
      eapply emits_ok_try; [apply write_without_stop_emits|intros ?]
  | |- emits_ok _ _ (try_ (read_first_bytes _ _) _) =>
      eapply emits_ok_try; [apply emits_ok_of, read_first_bytes_emits|intros ?]
  | |- emits_ok _ _ (try_ _ _) =>
      eapply (emits_ok_try _ []); [solve [apply emits_ok_of; emits0 bus_sel_reads]|intros ?]
  | |- emits_ok _ _ (bind (emit _) _) =>
      eapply emits_ok_bind; [apply emits_emit|intros ?]
  | |- emits_ok _ _ (bind send_stop _) =>
      eapply emits_ok_bind; [apply emits_emit|intros ?]
  | |- emits_ok _ _ (bind _ _) =>
      eapply (emits_ok_bind _ []); [solve [emits0 bus_sel_reads]|intros ?]
  | |- emits_ok _ _ (ret _) => apply emits_ok_ret
  | |- emits_ok _ _ (match ?x with _ => _ end) => destruct x
  end.

Lemma write_emits b addr bytes :
  emits_ok bus_sel
    (EvDataWrite (addr_byte addr false) :: map EvDataWrite bytes ++ [EvStop])
    (write b addr bytes).
Proof. unfold write. eapply emits_ok_eq; [|eok]. reflexivity. Qed.

Lemma read_emits b addr buffer :
  emits_ok bus_sel [EvDataWrite (addr_byte addr true); EvStop] (read b addr buffer).
Proof.
  unfold read. destruct buffer as [|x [|y [|z l]]]; cbn [length];
    (eapply emits_ok_eq; [|eok]); reflexivity.
Qed.

Lemma write_read_emits b addr bytes buffer :
  emits_ok bus_sel
    ((if is_empty bytes then []
      else EvDataWrite (addr_byte addr false) :: map EvDataWrite bytes) ++
     (if is_empty buffer then (if is_empty bytes then [] else [EvStop])
      else [EvDataWrite (addr_byte addr true); EvStop]))
    (write_read b addr bytes buffer).
Proof.
  unfold write_read.
  destruct bytes as [|x xs], buffer as [|y ys]; cbn [is_empty negb];
    (eapply emits_ok_eq; [|eok;
       try (eapply emits_ok_try; [apply read_emits|intros ?]); eok]);
    try reflexivity; rewrite app_nil_r; reflexivity.
Qed.

(** ** Bytes read from DATA *)

Lemma data_frame_ret {A} (a : A) : data_frame (ret a).
Proof. intros s a' s' H; injection H as _ <-; auto. Qed.

Lemma data_frame_panic {A} : data_frame (@panic A).
Proof. intros s a s' H; discriminate. Qed.

Lemma data_frame_emit e : data_frame (emit e).
Proof. intros s a s' H; injection H as _ <-; auto. Qed.

Lemma data_frame_bind {A B} (m : M A) (k : A -> M B) :
  data_frame m -> (forall a, data_frame (k a)) -> data_frame (bind m k).
Proof.
  intros Hm Hk s b s' H; unfold bind in H.
  destruct (m s) as [[a| |] s1] eqn:E; try discriminate.
  destruct (Hk _ _ _ _ H), (Hm _ _ _ E); split; congruence.
Qed.

Lemma data_frame_read_stat0 : data_frame read_stat0.
Proof. intros s a s' H; injection H as _ <-; auto. Qed.

Lemma data_frame_read_ctl0_stop : data_frame read_ctl0_stop.
Proof. intros s a s' H; injection H as _ <-; auto. Qed.

Lemma data_frame_cycle_count : data_frame cycle_count.
Proof. intros s a s' H; injection H as _ <-; auto. Qed.

Lemma data_frame_get_fuel : data_frame get_fuel.
Proof. intros s a s' H; injection H as _ <-; auto. Qed.

Lemma data_frame_busy_wait_loop poll started cycles :
  data_frame poll -> forall fuel, data_frame (busy_wait_loop fuel poll started cycles).
Proof.
  intros Hp fuel; induction fuel as [|fuel IH]; [intros s a s' H; discriminate|].
  cbn [busy_wait_loop]. apply data_frame_bind; [exact Hp|intros r].
  destruct (negb (is_would_block r)); [apply data_frame_ret|].
  apply data_frame_bind; [apply data_frame_cycle_count|intros now].
  destruct (cycles <=? wrapping_sub now started); [apply data_frame_ret|exact IH].
Qed.

(** Proves [data_frame m] by going through the code of [m]. *)
Ltac dframe :=
  repeat match goal with
  | |- data_frame (bind _ _) => apply data_frame_bind; [|intros ?]
  | |- data_frame (try_ _ _) => unfold try_
  | |- data_frame (ret _) => apply data_frame_ret
  | |- data_frame panic => apply data_frame_panic
  | |- data_frame (emit _) => apply data_frame_emit
  | |- data_frame read_stat0 => apply data_frame_read_stat0
  | |- data_frame read_ctl0_stop => apply data_frame_read_ctl0_stop
  | |- data_frame cycle_count => apply data_frame_cycle_count
  | |- data_frame get_fuel => apply data_frame_get_fuel
  | |- data_frame (busy_wait_loop _ _ _ _) => apply data_frame_busy_wait_loop
  | |- data_frame (match ?x with _ => _ end) => destruct x
  | |- data_frame (let _ := _ in _) => cbv zeta
  | |- data_frame read_data => fail 1
  | |- data_frame (start_loop _ _ _) => fail 1
  | |- data_frame ?m =>
      let h := eval red in m in
      progress change (data_frame h)
  end.

Lemma data_frame_start_loop b : forall k last, data_frame (start_loop b k last).
Proof.
  induction k as [|k IH]; intros last; cbn [start_loop]; [apply data_frame_ret|].
  dframe. apply IH.
Qed.

Lemma data_frame_send_addr_and_wait b addr rd :
  data_frame (send_addr_and_wait b addr rd).
Proof. dframe. Qed.

Lemma read_data_run s v s' :
  read_data s = (Done v, s') ->
  v = hw_data (st_hw s) (n_data s) /\ st_hw s' = st_hw s /\
  n_data s' = S (n_data s).
Proof. intros H; injection H as <- <-; auto. Qed.

Lemma next_data_S s n :
  next_data s (S n) =
  hw_data (st_hw s) (n_data s) ::
  map (hw_data (st_hw s)) (seq (S (n_data s)) n).
Proof. reflexivity. Qed.

(** Steps through a hypothesis [H : run = (Done (Ok _), _)] of a program
    made of [try_] and [bind]. *)
Ltac fwd H :=
  repeat match type of H with
  | try_ ?m _ ?s = (Done (Ok _), _) =>
      let E := fresh "E" in let r := fresh "r" in let s1 := fresh "s" in
      unfold try_ at 1, bind at 1 in H;
      destruct (m s) as [[r| |] s1] eqn:E; [|discriminate H|discriminate H];
      destruct r as [?|?]; [cbv beta iota in H|cbv [ret] in H; discriminate H]
  | bind ?m _ ?s = (Done (Ok _), _) =>
      let E := fresh "E" in let r := fresh "r" in let s1 := fresh "s" in
      unfold bind at 1 in H;
      destruct (m s) as [[r| |] s1] eqn:E; [cbv beta iota in H|discriminate H|discriminate H]
  | ret _ _ = (Done _, _) => cbv [ret] in H; injection H as <- <-
  end.

(** Turns the runs [E : m s = (Done _, s')] of the steps into facts about
    the hardware and the DATA read counter. *)
Ltac frames :=
  repeat match goal with
  | E : read_data ?s = (Done ?v, ?s') |- _ =>
      apply read_data_run in E; destruct E as (-> & ? & ?)
  | E : send_start_and_wait _ ?s = (Done _, ?s') |- _ =>
      apply data_frame_start_loop in E; destruct E
  | E : send_addr_and_wait _ _ _ ?s = (Done _, ?s') |- _ =>
      apply data_frame_send_addr_and_wait in E; destruct E
  | E : slice_set _ _ _ _ = (Done _, _) |- _ =>
      unfold slice_set in E;
      cbn [length Nat.ltb Nat.leb firstn skipn app ret panic] in E;
      (injection E as <- <- || discriminate E)
  | E : usize_sub _ _ _ = (Done _, _) |- _ =>
      unfold usize_sub in E; cbn [Nat.leb Nat.sub ret panic] in E;
      (injection E as <- <- || discriminate E)
  | E : ?m ?s = (Done _, ?s') |- _ =>
      lazymatch m with
      | slice_set _ _ _ => fail
      | usize_sub _ _ => fail
      | split_at_mut _ _ => fail
      | read_first_bytes _ _ => fail
      | _ => idtac
      end;
      let F := fresh "F" in
      assert (F : data_frame m) by dframe;
      destruct (F _ _ _ E); clear F E
  end.

Lemma read_first_bytes_data b : forall l s r s',
  read_first_bytes b l s = (Done (Ok r), s') ->
  r = next_data s (length l) /\ st_hw s' = st_hw s /\
  n_data s' = (n_data s + length l)%nat.
Proof.
  induction l as [|x l IH]; intros s r s' H; cbn [read_first_bytes] in H.
  - injection H as <- <-; auto.
  - fwd H.
    match goal with E : read_first_bytes _ _ _ = _ |- _ =>
      apply IH in E; destruct E as (-> & ? & ?) end.
    frames. cbn [length]. rewrite next_data_S. unfold next_data.
    repeat split; [congruence|congruence|lia].
Qed.

Lemma read_data_aux b addr buffer s r s' :
  read b addr buffer s = (Done (Ok r), s') ->
  r = next_data s (length buffer) /\ st_hw s' = st_hw s /\
  n_data s' = (n_data s + length buffer)%nat.
Proof.
  intros H.
  destruct buffer as [|x0 [|x1 [|x2 rest]]]; unfold read in H; cbn [length] in H.
  - fwd H. frames.
  - fwd H. frames. cbn [length]; unfold next_data; cbn [seq map].
    repeat split; [congruence|congruence|lia].
  - fwd H. frames. cbn [length]; unfold next_data; cbn [seq map].
    repeat split; [congruence|congruence|lia].
  - fwd H. frames.
    rewrite Nat.sub_0_r in E5. unfold split_at_mut in E5.
    assert (Hsplit : (length rest <=? length (x0 :: x1 :: x2 :: rest))%nat = true)
      by (apply Nat.leb_le; simpl; lia).
    rewrite Hsplit in E5. injection E5 as <- <-. cbv beta iota in H.
    destruct (skipn (length rest) (x0 :: x1 :: x2 :: rest))
      as [|y0 [|y1 [|y2 [|y3 more]]]] eqn:Hs;
      try (assert (Hl := f_equal (@length Z) Hs);
           rewrite length_skipn in Hl; cbn [length] in Hl; lia).
    fwd H.
    match goal with E : read_first_bytes _ _ _ = _ |- _ =>
      apply read_first_bytes_data in E; destruct E as (-> & ? & ?) end.
    frames.
    rewrite length_firstn in H10 |- *.
    replace (Nat.min (length rest) (length (x0 :: x1 :: x2 :: rest)))
      with (length rest) in * by (simpl; lia).
    assert (Hw : st_hw s4 = st_hw s /\ st_hw s7 = st_hw s /\
                 st_hw s10 = st_hw s /\ st_hw s13 = st_hw s /\
                 st_hw s17 = st_hw s) by (repeat split; congruence).
    assert (Hn : n_data s4 = n_data s /\
                 n_data s7 = (n_data s + length rest)%nat /\
                 n_data s10 = S (n_data s + length rest) /\
                 n_data s13 = S (S (n_data s + length rest)) /\
                 n_data s17 = (n_data s + (length rest + 3))%nat)
      by (repeat split; lia).
    unfold next_data.
    destruct Hw as (-> & -> & -> & -> & ->).
    destruct Hn as (-> & -> & -> & -> & ->).
    replace (length (x0 :: x1 :: x2 :: rest)) with (length rest + 3)%nat
      by (simpl; lia).
    rewrite seq_app, map_app. cbn [seq map].
    repeat split; reflexivity.
Qed.

(** ** The last event of a successful run *)

Lemma ok_ends_try {A B} e (m : M (NbResult A)) (k : A -> M (NbResult B)) :
  (forall a, ok_ends e (k a)) -> ok_ends e (try_ m k).
Proof.
  intros Hk s b s' H; unfold try_, bind in H.
  destruct (m s) as [[[a|err]| |] s1]; try discriminate.
  exact (Hk _ _ _ _ H).
Qed.

Lemma ok_ends_bind {A B} e (m : M A) (k : A -> M (NbResult B)) :
  (forall a, ok_ends e (k a)) -> ok_ends e (bind m k).
Proof.
  intros Hk s b s' H; unfold bind in H.
  destruct (m s) as [[a| |] s1]; try discriminate.
  exact (Hk _ _ _ _ H).
Qed.

Lemma ok_ends_emit_ret {A} e (x : A) : ok_ends e (emit e ;; ret (Ok x)).
Proof. intros s a s' H; injection H as _ <-; eexists; reflexivity. Qed.

Lemma ok_ends_panic {A} e : ok_ends e (@panic (NbResult A)).
Proof. intros s a s' H; discriminate. Qed.

Ltac ok_ends_tac :=
  repeat match goal with
  | |- ok_ends _ (bind (emit _) (fun _ => ret (Ok _))) => apply ok_ends_emit_ret
  | |- ok_ends _ (try_ _ _) => apply ok_ends_try; intros ?
  | |- ok_ends _ (bind _ _) => apply ok_ends_bind; intros ?
  | |- ok_ends _ panic => apply ok_ends_panic
  | |- ok_ends _ (match ?x with _ => _ end) => destruct x
  end.

Lemma read_ok_ends b addr buffer : ok_ends (EvAcken true) (read b addr buffer).
Proof. unfold read. ok_ends_tac. Qed.

(** ** Successful START *)

Lemma start_loop_ok (b : BlockingI2c) : forall k last s s',
  is_err last = true ->
  start_loop b k last s = (Done (Ok tt), s') ->
  exists j, (j < k)%nat /\
    cnt is_start s' = (cnt is_start s + S j)%nat /\
    cnt is_soft_reset s' = (cnt is_soft_reset s + j)%nat.
Proof.
  induction k as [|k IH]; intros last s s' Hl H; cbn [start_loop] in H.
  - injection H as Hr _. subst last. discriminate.
  - unfold bind at 1 in H.
    destruct (send_start s) as [[[]| |] s1] eqn:E1; try discriminate.
    assert (R1 := adds_emit is_soft_reset EvStart _ _ _ E1).
    assert (S1 := adds_emit is_start EvStart _ _ _ E1).
    unfold bind at 1 in H.
    destruct (busy_wait_cycles wait_after_sent_start (start_timeout b) s1)
      as [[r| |] s2] eqn:E2; try discriminate.
    assert (R2 := adds_busy_wait_cycles is_soft_reset reads_not_soft_reset
                    _ _ (adds_wait_for_flag _ reads_not_soft_reset _) _ _ _ E2).
    assert (S2 := adds_busy_wait_cycles is_start reads_not_start
                    _ _ (adds_wait_for_flag _ reads_not_start _) _ _ _ E2).
    cbn in R1, S1.
    destruct (is_err r) eqn:Er.
    + unfold bind at 1 in H.
      destruct (reset (nb b) s2) as [[[]| |] s3] eqn:E3; try discriminate.
      assert (R3 := reset_adds_soft_reset _ _ _ _ E3).
      assert (S3 := reset_adds_start _ _ _ _ E3).
      destruct (IH _ _ _ Er H) as (j & Hj & S4 & R4).
      exists (S j); repeat split; lia.
    + injection H as _ <-. exists 0%nat; repeat split; lia.
Qed.

(** ** Clock programming and construction *)

Lemma init_outcome_aux (i : I2c) (s : St)
  (Hp : 0 <= pclk1 i < 2 ^ 32) (Hf : 0 <= get_frequency (mode i) <= 400000) :
  fst (init i s) =
  if (get_frequency (mode i) =? 0) ||
     match mode i with Fast _ _ => 219000000 <=? pclk1 i | Standard _ => false end
  then Panic else Done tt.
Proof.
  destruct i as [m pclk]; cbn [mode pclk1] in *.
  assert (Hm : 0 <= pclk / 1000000 < 4295).
  { split; [apply Z.div_pos; lia|]. apply Z.div_lt_upper_bound; lia. }
  assert (Hu : as_u16 (pclk / 1000000) = pclk / 1000000)
    by (apply Z.mod_small; lia).
  destruct m as [f|f [|]]; cbn [get_frequency] in *;
    destruct (Z.eqb_spec f 0) as [->|Hf0]; cbn [orb];
    try destruct (Z.leb_spec 219000000 pclk);
    unfold init, u16_add, u16_mul, u32_mul, div_checked, bind, emit, ret, panic;
    cbn [mode pclk1 get_frequency fst snd]; rewrite Hu; decide_ifs;
    try reflexivity.
Qed.

Lemma init_done (i : I2c) (s : St) :
  fst (init i s) = Done tt -> exists s', init i s = (Done tt, s').
Proof.
  intros H; destruct (init i s) as [o s']; cbn in H; subst o; eauto.
Qed.

Lemma create_internal_done (m : Mode) (pclk : Z) (s : St)
  (Hp : 0 <= pclk < 2 ^ 32) (Hf : 0 < get_frequency m <= 400000)
  (Hfast : match m with Fast _ _ => pclk < 219000000 | Standard _ => True end) :
  exists s', create_internal m pclk s = (Done (mkI2c m pclk), s').
Proof.
  set (s1 := set_trace s (EvBusReset :: EvBusEnable :: trace s)).
  destruct (init_done (mkI2c m pclk) s1) as [s2 E].
  { rewrite init_outcome_aux by (cbn; lia). cbn [mode pclk1].
    replace (get_frequency m =? 0) with false by (symmetry; apply Z.eqb_neq; lia).
    destruct m; [reflexivity|]. cbn [orb].
    replace (219000000 <=? pclk) with false by (symmetry; apply Z.leb_gt; lia).
    reflexivity. }
  exists s2.
  assert (Hle : (get_frequency m <=? 400000) = true) by (apply Z.leb_le; lia).
  unfold create_internal, bind at 1 2, emit at 1 2. rewrite Hle.
  unfold s1, set_trace in E.
  cbn [st_hw n_stat0 n_ctl0 n_data n_cyc st_fuel trace].
  unfold bind at 1. rewrite E. reflexivity.
Qed.

(** A run of [create_internal] that finishes: the frequency passed the
    check and clock programming finished. *)
Lemma create_internal_inv (m : Mode) (pclk : Z) (s : St) i s1 :
  create_internal m pclk s = (Done i, s1) ->
  i = mkI2c m pclk /\ get_frequency m <= 400000 /\
  exists s0, fst (init i s0) = Done tt.
Proof.
  intros H. unfold create_internal, bind at 1 2, emit at 1 2 in H.
  destruct (Z.leb_spec (get_frequency m) 400000); [|discriminate].
  unfold bind at 1 in H.
  destruct (init (mkI2c m pclk) _) as [[[]| |] s2] eqn:E; try discriminate.
  injection H as <- _. repeat split; [assumption|].
  eexists; rewrite E; reflexivity.
Qed.

Lemma busy_wait_zero_aux (poll : M (NbResult unit)) (cycles : Z) (s : St)
  (Hc : cycles <= 0) (Hfuel : (0 < st_fuel s)%nat) :
  busy_wait_cycles poll cycles s =
  (_ <- cycle_count ;;
   r <- poll ;;
   if is_would_block r then cycle_count ;; ret r else ret r) s.
Proof.
  unfold busy_wait_cycles, bind at 1 3, cycle_count at 1 2.
  unfold bind at 1, get_fuel. cbn [st_fuel].
  destruct (st_fuel s) as [|fuel]; [lia|]. cbn [busy_wait_loop].
  apply bind_ext; intros r s2.
  destruct (is_would_block r); cbn [negb]; [|reflexivity].
  apply bind_ext; intros now s3.
  replace (cycles <=? wrapping_sub now _) with true; [reflexivity|].
  symmetry; apply Z.leb_le. unfold wrapping_sub.
  pose proof (Z.mod_pos_bound (now - hw_cyc (st_hw s) (n_cyc s)) (2 ^ 32)).
  lia.
Qed.

Lemma lor_even_bit (q : Z) (rd : bool) :
  Z.lor (2 * q) (if rd then 1 else 0) = 2 * q + (if rd then 1 else 0).
Proof.
  destruct rd; [|rewrite Z.lor_0_r; lia].
  apply Z.bits_inj'; intros n Hn. rewrite Z.lor_spec.
  destruct (Z.eq_dec n 0) as [->|Hn0].
  - rewrite Z.testbit_even_0, Z.testbit_odd_0. reflexivity.
  - replace n with (Z.succ (Z.pred n)) by lia.
    rewrite Z.testbit_even_succ, Z.testbit_odd_succ by lia.
    replace 1 with (2 * 0 + 1) by reflexivity.
    rewrite Z.testbit_odd_succ by lia. rewrite Z.testbit_0_l, orb_false_r.
    reflexivity.
Qed.

Lemma addr_byte_eq (addr : Z) (rd : bool) :
  addr_byte addr rd = 2 * (addr mod 128) + (if rd then 1 else 0).
Proof.
  unfold addr_byte, as_u8.
  rewrite Z.shiftl_mul_pow2 by lia.
  change (2 ^ 8) with (128 * 2). change (2 ^ 1) with 2.
  rewrite Z.mul_mod_distr_r by lia.
  rewrite Z.mul_comm. apply lor_even_bit.
Qed.

(** ** Properties of the driver beyond the specification's claims *)

(** A successful [write] puts on the bus, from the data path, the address
    byte with the write bit, then every byte of [bytes] in order, then one
    STOP, and nothing else. *)
Theorem write_bus_output (b : BlockingI2c) (addr : Z) (bytes : list Z)
  (s s' : St) :
  write b addr bytes s = (Done (Ok tt), s') ->
  out bus_sel s' =
  out bus_sel s ++ EvDataWrite (addr_byte addr false) ::
    map EvDataWrite bytes ++ [EvStop].
Proof. intros H. exact (write_emits b addr bytes s tt s' H). Qed.

(** A successful [read], whatever the length of the buffer, writes only the
    address byte with the read bit to DATA and issues exactly one STOP. *)
Theorem read_bus_output (b : BlockingI2c) (addr : Z) (buffer : list Z)
  (s : St) (r : list Z) (s' : St) :
  read b addr buffer s = (Done (Ok r), s') ->
  out bus_sel s' = out bus_sel s ++ [EvDataWrite (addr_byte addr true); EvStop].
Proof. intros H. exact (read_emits b addr buffer s r s' H). Qed.

(** A successful [write_read] with both slices non-empty writes the address
    byte with the write bit and the bytes, then the address byte with the
    read bit, and issues a single STOP at the end: no STOP between the
    write and the read (a repeated START).  With only [bytes] non-empty it
    is the output of [write]; with only [buffer] non-empty that of [read];
    with both empty nothing. *)
Theorem write_read_bus_output (b : BlockingI2c) (addr : Z)
  (bytes buffer : list Z) (s : St) (r : list Z) (s' : St) :
  write_read b addr bytes buffer s = (Done (Ok r), s') ->
  out bus_sel s' =
  out bus_sel s ++
    (if is_empty bytes then []
     else EvDataWrite (addr_byte addr false) :: map EvDataWrite bytes) ++
    (if is_empty buffer then (if is_empty bytes then [] else [EvStop])
     else [EvDataWrite (addr_byte addr true); EvStop]).
Proof. intros H. exact (write_read_emits b addr bytes buffer s r s' H). Qed.

(** A successful [read] returns a buffer of the length of [buffer] holding,
    in order, the next [length buffer] bytes of the DATA register: DATA is
    read exactly [length buffer] times. *)
Theorem read_returns_next_data (b : BlockingI2c) (addr : Z)
  (buffer : list Z) (s : St) (r : list Z) (s' : St) :
  read b addr buffer s = (Done (Ok r), s') ->
  r = next_data s (length buffer) /\ length r = length buffer /\
  n_data s' = (n_data s + length buffer)%nat.
Proof.
  intros H. destruct (read_data_aux b addr buffer s r s' H) as (-> & _ & Hn).
  unfold next_data. rewrite length_map, length_seq. auto.
Qed.

(** A successful [read] ends by setting ACK again: the last event is the
    write of ACK enabled to CTL0. *)
Theorem read_ok_reenables_ack (b : BlockingI2c) (addr : Z)
  (buffer : list Z) (s : St) (r : list Z) (s' : St) :
  read b addr buffer s = (Done (Ok r), s') ->
  exists t, trace s' = EvAcken true :: t.
Proof. intros H. exact (read_ok_ends b addr buffer s r s' H). Qed.

(** When START succeeds, it took [j + 1] attempts for some
    [j < start_retries]: [j + 1] STARTs and [j] soft resets were issued. *)
Theorem start_success_counts (b : BlockingI2c) (s s' : St) :
  send_start_and_wait b s = (Done (Ok tt), s') ->
  exists j, (j < start_retries b)%nat /\
    cnt is_start s' = (cnt is_start s + S j)%nat /\
    cnt is_soft_reset s' = (cnt is_soft_reset s + j)%nat.
Proof. intros H. exact (start_loop_ok b _ (Err WouldBlock) s s' eq_refl H). Qed.

(** A busy-wait with a budget of at most 0 cycles polls exactly once and
    returns the result of that poll (it reads the cycle counter once before
    and, after a "not ready", once after the poll). *)
Theorem busy_wait_zero_budget (poll : M (NbResult unit)) (cycles : Z) (s : St)
  (Hc : cycles <= 0) (Hfuel : (0 < st_fuel s)%nat) :
  busy_wait_cycles poll cycles s =
  (_ <- cycle_count ;;
   r <- poll ;;
   if is_would_block r then cycle_count ;; ret r else ret r) s.
Proof. exact (busy_wait_zero_aux poll cycles s Hc Hfuel). Qed.

(** For a u32 [pclk1] and a frequency up to 400 kHz, clock programming
    panics exactly when the frequency is 0 (division by zero) or, in fast
    mode, when [pclk1 >= 219 MHz] ([pclk1_MHz * 300] overflows a u16);
    otherwise it finishes. *)
Theorem init_panics_iff (i : I2c) (s : St)
  (Hp : 0 <= pclk1 i < 2 ^ 32) (Hf : 0 <= get_frequency (mode i) <= 400000) :
  fst (init i s) =
  if (get_frequency (mode i) =? 0) ||
     match mode i with Fast _ _ => 219000000 <=? pclk1 i | Standard _ => false end
  then Panic else Done tt.
Proof. exact (init_outcome_aux i s Hp Hf). Qed.

(** Once construction has succeeded, the soft reset of the START retries
    always finishes: it cannot panic, in any later state. *)
Theorem reset_after_create (m : Mode) (pclk : Z) (s : St) (i : I2c) (s1 : St)
  (Hp : 0 <= pclk < 2 ^ 32) (Hf : 0 <= get_frequency m) :
  create_internal m pclk s = (Done i, s1) ->
  forall s', exists s'', reset i s' = (Done tt, s'').
Proof.
  intros H s'. destruct (create_internal_inv m pclk s i s1 H) as (-> & Hle & s0 & H0).
  rewrite init_outcome_aux in H0 by (cbn; lia).
  set (s2 := set_trace s' (EvCtl0ResetValue :: EvSoftReset :: trace s')).
  destruct (init_done (mkI2c m pclk) s2) as [s3 E].
  { rewrite init_outcome_aux by (cbn; lia). exact H0. }
  exists s3. unfold reset, bind at 1 2, emit at 1 2.
  unfold s2, set_trace in E.
  cbn [st_hw n_stat0 n_ctl0 n_data n_cyc st_fuel trace]. exact E.
Qed.

(** The blocking constructor: for a valid mode it programs the peripheral,
    then turns the three timeouts into cycles, [t * (sysclk / 1_000_000)];
    it panics (after programming) when one of these u32 products
    overflows. *)
Theorem blocking_create_internal_timeouts (m : Mode) (pclk sysclk : Z)
  (su : Z) (retries : nat) (au du : Z) (s : St)
  (Hp : 0 <= pclk < 2 ^ 32) (Hf : 0 < get_frequency m <= 400000)
  (Hfast : match m with Fast _ _ => pclk < 219000000 | Standard _ => True end) :
  let mhz := sysclk / 1000000 in
  exists s1, create_internal m pclk s = (Done (mkI2c m pclk), s1) /\
    blocking_create_internal m pclk sysclk su retries au du s =
    if (su * mhz <? 2 ^ 32) && (au * mhz <? 2 ^ 32) && (du * mhz <? 2 ^ 32)
    then (Done (mkBlockingI2c (mkI2c m pclk) (su * mhz) retries (au * mhz)
                              (du * mhz)), s1)
    else (Panic, s1).
Proof.
  intros mhz. destruct (create_internal_done m pclk s Hp Hf Hfast) as [s1 E].
  exists s1; split; [exact E|].
  unfold blocking_create_internal, bind at 1. rewrite E.
  unfold blocking_i2c, u32_mul, bind. fold mhz.
  destruct (su * mhz <? 2 ^ 32), (au * mhz <? 2 ^ 32), (du * mhz <? 2 ^ 32);
    reflexivity.
Qed.

(** [send_addr] writes to DATA the byte [2 * (addr mod 128) + read_bit]:
    the 7 low address bits shifted up (higher address bits are lost in the
    u8 shift) with the read bit below them. *)
Theorem send_addr_byte (addr : Z) (rd : bool) (s : St) :
  send_addr addr rd s =
    (Done tt, set_trace s (EvDataWrite (addr_byte addr rd) :: trace s)) /\
  addr_byte addr rd = 2 * (addr mod 128) + (if rd then 1 else 0) /\
  0 <= addr_byte addr rd < 256 /\
  addr_byte addr rd / 2 = addr mod 128 /\
  addr_byte addr rd mod 2 = (if rd then 1 else 0).
Proof.
  split; [reflexivity|]. rewrite addr_byte_eq.
  pose proof (Z.mod_pos_bound addr 128).
  split; [reflexivity|].
  destruct rd; repeat split; try lia;
    first [ symmetry; apply (Z.div_unique _ _ _ 1); lia
          | symmetry; apply (Z.div_unique _ _ _ 0); lia
          | symmetry; apply (Z.mod_unique _ _ (addr mod 128)); lia ].
Qed.

(** [write] with no bytes never succeeds: it returns the error of START or
    of the address phase, and when both succeed it panics ([bytes[0]] on an
    empty slice). *)
Theorem write_empty_panics (b : BlockingI2c) (addr : Z) :
  (forall s a s', write b addr [] s <> (Done (Ok a), s')) /\
  (forall s s1 s2, send_start_and_wait b s = (Done (Ok tt), s1) ->
     send_addr_and_wait b addr false s1 = (Done (Ok tt), s2) ->
     fst (write b addr [] s) = Panic).
Proof.
  split.
  - intros s a s' H. unfold write, write_without_stop, try_ at 1 2, bind at 1 2 in H.
    destruct (send_start_and_wait b s) as [[[[]|e]| |] s1]; try discriminate.
    unfold try_ at 1, bind at 1 in H.
    destruct (send_addr_and_wait b addr false s1) as [[[[]|e]| |] s2];
      discriminate.
  - intros s s1 s2 H1 H2. unfold write, write_without_stop, try_ at 1 2, bind at 1 2.
    rewrite H1. unfold try_ at 1, bind at 1. rewrite H2. reflexivity.
Qed.

(** *** Instances of the properties on concrete runs *)

Lemma write_bus_output_witness :
  write (cfg 1) 80 [1; 2] ack_state =
    (Done (Ok tt), snd (write (cfg 1) 80 [1; 2] ack_state)) /\
  out bus_sel (snd (write (cfg 1) 80 [1; 2] ack_state)) =
  out bus_sel ack_state ++ EvDataWrite (addr_byte 80 false) ::
    map EvDataWrite [1; 2] ++ [EvStop].
Proof.
  split; [vm_compute; reflexivity|].
  apply (write_bus_output (cfg 1) 80 [1; 2] ack_state). vm_compute. reflexivity.
Defined.

Lemma read_bus_output_witness :
  read (cfg 1) 80 [0; 0; 0] ack_state =
    (Done (Ok [10; 11; 12]),
     snd (read (cfg 1) 80 [0; 0; 0] ack_state)) /\
  out bus_sel (snd (read (cfg 1) 80 [0; 0; 0] ack_state)) =
  out bus_sel ack_state ++ [EvDataWrite (addr_byte 80 true); EvStop].
Proof.
  split; [vm_compute; reflexivity|].
  apply (read_bus_output (cfg 1) 80 [0; 0; 0] ack_state [10; 11; 12]).
  vm_compute. reflexivity.
Defined.

Lemma write_read_bus_output_witness :
  write_read (cfg 1) 80 [1] [0; 0] ack_state =
    (Done (Ok [10; 11]), snd (write_read (cfg 1) 80 [1] [0; 0] ack_state)) /\
  out bus_sel (snd (write_read (cfg 1) 80 [1] [0; 0] ack_state)) =
  out bus_sel ack_state ++
    [EvDataWrite (addr_byte 80 false); EvDataWrite 1] ++
    [EvDataWrite (addr_byte 80 true); EvStop].
Proof.
  split; [vm_compute; reflexivity|].
  apply (write_read_bus_output (cfg 1) 80 [1] [0; 0] ack_state [10; 11]).
  vm_compute. reflexivity.
Defined.

Lemma read_returns_next_data_witness :
  read (cfg 1) 80 [0; 0; 0] ack_state =
    (Done (Ok [10; 11; 12]), snd (read (cfg 1) 80 [0; 0; 0] ack_state)) /\
  [10; 11; 12] = next_data ack_state 3 /\ length [10; 11; 12] = 3%nat /\
  n_data (snd (read (cfg 1) 80 [0; 0; 0] ack_state)) = (n_data ack_state + 3)%nat.
Proof.
  split; [vm_compute; reflexivity|].
  apply (read_returns_next_data (cfg 1) 80 [0; 0; 0] ack_state).
  vm_compute. reflexivity.
Defined.

Lemma read_ok_reenables_ack_witness :
  read (cfg 1) 80 [0] ack_state =
    (Done (Ok [10]), snd (read (cfg 1) 80 [0] ack_state)) /\
  exists t, trace (snd (read (cfg 1) 80 [0] ack_state)) = EvAcken true :: t.
Proof.
  split; [vm_compute; reflexivity|].
  apply (read_ok_reenables_ack (cfg 1) 80 [0] ack_state [10]).
  vm_compute. reflexivity.
Defined.

Lemma start_success_counts_witness :
  send_start_and_wait (cfg 1) ack_state =
    (Done (Ok tt), snd (send_start_and_wait (cfg 1) ack_state)) /\
  exists j, (j < start_retries (cfg 1))%nat /\
    cnt is_start (snd (send_start_and_wait (cfg 1) ack_state)) =
      (cnt is_start ack_state + S j)%nat /\
    cnt is_soft_reset (snd (send_start_and_wait (cfg 1) ack_state)) =
      (cnt is_soft_reset ack_state + j)%nat.
Proof.
  split; [vm_compute; reflexivity|].
  apply (start_success_counts (cfg 1) ack_state). vm_compute. reflexivity.
Defined.

Lemma busy_wait_zero_budget_witness :
  0 <= 0 /\ (0 < st_fuel ack_state)%nat /\
  busy_wait_cycles wait_for_stop 0 ack_state =
  (_ <- cycle_count ;;
   r <- wait_for_stop ;;
   if is_would_block r then cycle_count ;; ret r else ret r) ack_state.
Proof.
  split; [lia|]. split; [vm_compute; lia|].
  apply busy_wait_zero_budget; [lia | vm_compute; lia].
Defined.

Lemma init_panics_iff_witness :
  0 <= pclk1 (mkI2c (Fast 400000 Ratio2to1) 220000000) < 2 ^ 32 /\
  0 <= get_frequency (mode (mkI2c (Fast 400000 Ratio2to1) 220000000)) <= 400000 /\
  fst (init (mkI2c (Fast 400000 Ratio2to1) 220000000) idle_state) = Panic.
Proof.
  split; [cbn; lia|]. split; [cbn; lia|].
  rewrite (init_panics_iff (mkI2c (Fast 400000 Ratio2to1) 220000000) idle_state);
    cbn; [reflexivity | lia | lia].
Defined.

Lemma reset_after_create_witness :
  0 <= 8000000 < 2 ^ 32 /\ 0 <= get_frequency (Standard 100000) /\
  create_internal (Standard 100000) 8000000 idle_state =
    (Done (mkI2c (Standard 100000) 8000000),
     snd (create_internal (Standard 100000) 8000000 idle_state)) /\
  exists s'', reset (mkI2c (Standard 100000) 8000000) ack_state = (Done tt, s'').
Proof.
  split; [lia|]. split; [cbn; lia|]. split; [vm_compute; reflexivity|].
  refine (reset_after_create (Standard 100000) 8000000 idle_state
            (mkI2c (Standard 100000) 8000000)
            (snd (create_internal (Standard 100000) 8000000 idle_state))
            _ _ _ ack_state); [lia | cbn; lia | vm_compute; reflexivity].
Defined.

Lemma blocking_create_internal_timeouts_witness :
  0 <= 8000000 < 2 ^ 32 /\ 0 < get_frequency (Standard 100000) <= 400000 /\
  let mhz := 8000000 / 1000000 in
  exists s1, create_internal (Standard 100000) 8000000 idle_state =
      (Done (mkI2c (Standard 100000) 8000000), s1) /\
    blocking_create_internal (Standard 100000) 8000000 8000000 1000 3 1000 1000
      idle_state =
    if (1000 * mhz <? 2 ^ 32) && (1000 * mhz <? 2 ^ 32) && (1000 * mhz <? 2 ^ 32)
    then (Done (mkBlockingI2c (mkI2c (Standard 100000) 8000000) (1000 * mhz) 3
                              (1000 * mhz) (1000 * mhz)), s1)
    else (Panic, s1).
Proof.
  split; [lia|]. split; [cbn; lia|].
  apply blocking_create_internal_timeouts; cbn; lia.
Defined.

Lemma write_empty_panics_witness :
  (forall s a s', write (cfg 1) 80 [] s <> (Done (Ok a), s')) /\
  send_start_and_wait (cfg 1) ack_state =
    (Done (Ok tt), snd (send_start_and_wait (cfg 1) ack_state)) /\
  send_addr_and_wait (cfg 1) 80 false (snd (send_start_and_wait (cfg 1) ack_state)) =
    (Done (Ok tt), snd (send_addr_and_wait (cfg 1) 80 false
                          (snd (send_start_and_wait (cfg 1) ack_state)))) /\
  fst (write (cfg 1) 80 [] ack_state) = Panic.
Proof.
  destruct (write_empty_panics (cfg 1) 80) as [H1 H2].
  split; [exact H1|]. split; [vm_compute; reflexivity|].
  split; [vm_compute; reflexivity|].
  apply (H2 ack_state (snd (send_start_and_wait (cfg 1) ack_state))
           (snd (send_addr_and_wait (cfg 1) 80 false
                   (snd (send_start_and_wait (cfg 1) ack_state)))));
    vm_compute; reflexivity.
Defined.
